(** * Product counter: a shallow embedding of the page-discovery,
      per-page analysis, aggregation and export code, with the properties
      the specification states about it.

    Sources embedded here:
    - [types/analysis.ts]            (src/unnamed/part_000)
    - the multi-page [ProductCounter] (src/unnamed/part_001)
    - the single-page [ProductCounter] (src/src/components/ProductCounter.tsx)

    Modelling conventions.
    - A JavaScript string is a [string]; one [ascii] stands for one code
      unit, so the model covers the 8-bit code units.
    - A JavaScript [number] is an exact rational [Q]: [NaN], the infinities
      and binary rounding are outside the model.  Equality of numbers is
      [Qeq] (written [==]).
    - The platform SDK ([blink.data], [blink.ai], [blink.db]) and the
      browser's [URL] class are opaque collaborators: they are the fields of
      a [Platform] record over which every theorem quantifies.  What a call
      answers may depend on everything that was called before it (the
      [History]), so a page scraped twice may answer differently.
    - [async] code runs sequentially; it is written in the monad [Run],
      which threads the history and carries thrown errors, and [try/catch]
      keeps the history accumulated before the throw.
    - React setters that only drive the progress display ([setProgress],
      [setProgressText], [setCrawlProgress], [setIsAnalyzing]) and
      [console.log] are left out; [setError] and [setResult] are the
      [Outcome] of a run. *)

From stdpp Require Import gmap strings list fin_maps pretty.
From Stdlib Require Import Ascii QArith Qround Lqa Lia.

Local Open Scope string_scope.
Local Open Scope list_scope.

(** ** JavaScript primitives *)

Module JS.

(** [s.startsWith(p)] *)
Definition startsWith (s p : string) : bool := String.prefix p s.

(** [s.includes(p)] *)
Definition includes (s p : string) : bool :=
  match String.index 0 p s with Some _ => true | None => false end.

Definition lower_ascii (c : ascii) : ascii :=
  let n := nat_of_ascii c in
  if (65 <=? n)%nat && (n <=? 90)%nat then ascii_of_nat (n + 32)
  else if (192 <=? n)%nat && (n <=? 222)%nat && negb (n =? 215)%nat
       then ascii_of_nat (n + 32)
  else c.

(** [s.toLowerCase()] *)
Fixpoint toLowerCase (s : string) : string :=
  match s with
  | EmptyString => EmptyString
  | String c s' => String (lower_ascii c) (toLowerCase s')
  end.

(** [s.slice(0, n)] on a string *)
Definition slice0 (n : nat) (s : string) : string := String.substring 0 n s.

(** White space removed by [trim] (tab, LF, VT, FF, CR, space, NBSP). *)
Definition is_space (c : ascii) : bool :=
  let n := nat_of_ascii c in
  ((9 <=? n)%nat && (n <=? 13)%nat) || (n =? 32)%nat || (n =? 160)%nat.

Fixpoint trimStart (s : list ascii) : list ascii :=
  match s with
  | c :: s' => if is_space c then trimStart s' else s
  | [] => []
  end.

(** [s.trim()] *)
Definition trim (s : string) : string :=
  String.string_of_list_ascii
    (rev (trimStart (rev (trimStart (String.list_ascii_of_string s))))).

(** [xs.join(sep)] *)
Fixpoint join (sep : string) (xs : list string) : string :=
  match xs with
  | [] => ""
  | [x] => x
  | x :: xs' => x +:+ sep +:+ join sep xs'
  end.

(** Truthiness of a string, and [s || d]. *)
Definition truthy_string (s : string) : bool :=
  match s with EmptyString => false | _ => true end.
Definition or_string (s d : string) : string :=
  if truthy_string s then s else d.

(** Truthiness of a number, and [x || d]. *)
Definition truthy_number (x : Q) : bool := negb (Qeq_bool x 0).
Definition or_number (x d : Q) : Q := if truthy_number x then x else d.

(** [Math.round]: the nearest integer, halves going up. *)
Definition Math_round (x : Q) : Q := inject_Z (Qfloor (x + (1 # 2))).

(** [a > b] on numbers. *)
Definition gt (a b : Q) : bool :=
  match (a ?= b)%Q with Gt => true | _ => false end.

(** A [Set<string>] keeps insertion order and ignores a second [add]. *)
Definition Set_add (x : string) (s : list string) : list string :=
  if bool_decide (x ∈ s) then s else s ++ [x].

(** [xs.includes(x)] on an array of strings *)
Definition Array_includes (xs : list string) (x : string) : bool :=
  bool_decide (x ∈ xs).

(** [xs.slice(0, n)] on an array *)
Definition Array_slice0 {A} (n : nat) (xs : list A) : list A := take n xs.

(** Line terminators, which [.] does not match in a regular expression. *)
Definition is_line_terminator (c : ascii) : bool :=
  let n := nat_of_ascii c in (n =? 10)%nat || (n =? 13)%nat.

Definition is_digit (c : ascii) : bool :=
  let n := nat_of_ascii c in (48 <=? n)%nat && (n <=? 57)%nat.

(** [s.match(/\/\d+/)] is not null: a slash followed by a digit. *)
Fixpoint has_slash_digit (s : string) : bool :=
  match s with
  | EmptyString => false
  | String c s' =>
      (Ascii.eqb c "/" && match s' with
                          | String d _ => is_digit d
                          | EmptyString => false
                          end)
      || has_slash_digit s'
  end.

Definition chars (s : string) : list ascii := String.list_ascii_of_string s.

Fixpoint starts_with_chars (p s : list ascii) : bool :=
  match p, s with
  | [], _ => true
  | a :: p', b :: s' => Ascii.eqb a b && starts_with_chars p' s'
  | _ :: _, [] => false
  end.

(** After an opening tag: how many characters the lazy [.*?] takes before
    the first closing tag, if it gets there without a line terminator. *)
Fixpoint loc_body (s : list ascii) : option nat :=
  if starts_with_chars (chars "</loc>") s then Some 0%nat
  else match s with
       | [] => None
       | c :: s' =>
           if is_line_terminator c then None
           else match loc_body s' with
                | Some k => Some (S k)
                | None => None
                end
       end.

(** The global match scans left to right and resumes after each match;
    [skip] counts the characters of the last match still to pass. *)
Fixpoint match_loc_go (skip : nat) (s : list ascii) : list (list ascii) :=
  match s with
  | [] => []
  | _ :: s' =>
      match skip with
      | S k => match_loc_go k s'
      | O =>
          if starts_with_chars (chars "<loc>") s then
            match loc_body (drop 5 s) with
            | Some k => take (5 + k + 6) s :: match_loc_go (5 + k + 5) s'
            | None => match_loc_go 0 s'
            end
          else match_loc_go 0 s'
      end
  end.

(** [s.match(/<loc>(.*?)<\/loc>/g)], with [null] read as no match. *)
Definition match_loc (s : string) : list string :=
  map String.string_of_list_ascii (match_loc_go 0 (chars s)).

Fixpoint strip_loc_go (skip : nat) (s : list ascii) : list ascii :=
  match s with
  | [] => []
  | c :: s' =>
      match skip with
      | S k => strip_loc_go k s'
      | O =>
          if starts_with_chars (chars "<loc>") s then strip_loc_go 4 s'
          else if starts_with_chars (chars "</loc>") s then strip_loc_go 5 s'
          else c :: strip_loc_go 0 s'
      end
  end.

(** [s.replace(/<\/?loc>/g, '')] *)
Definition strip_loc (s : string) : string :=
  String.string_of_list_ascii (strip_loc_go 0 (chars s)).

(** The double quote, as a one-character string. *)
Definition dquote : string := String (ascii_of_nat 34) EmptyString.

End JS.

(** ** Data model ([types/analysis.ts]) *)

(** [PageAnalysis.status] *)
Inductive PageStatus := page_completed | page_failed | page_skipped.

(** [AnalysisResult.status] *)
Inductive ResultStatus := result_completed | result_partial | result_failed.

Global Instance PageStatus_eq_dec : EqDecision PageStatus.
Proof. solve_decision. Defined.

Global Instance ResultStatus_eq_dec : EqDecision ResultStatus.
Proof. solve_decision. Defined.

Module PageAnalysis.
Record t := mk {
  url : string;
  productCount : Q;
  categories : list string;
  confidence : Q;
  evidence : list string;
  pageType : string;
  title : string;
  status : PageStatus;
  errorMessage : option string
}.
(** [p.status === 'completed'] *)
Definition is_completed (p : t) : bool := bool_decide (status p = page_completed).
End PageAnalysis.

Module Details.
Record t := mk {
  totalProducts : Q;
  productsByCategory : gmap string Q;
  analysisMethod : string;
  confidence : Q;
  pageBreakdown : gmap string Q
}.
End Details.

Module AnalysisResult.
Record t := mk {
  totalProductCount : Q;
  pagesAnalyzed : nat;
  pageResults : list PageAnalysis.t;
  sitemap : list string;
  summary : string;
  status : ResultStatus;
  details : Details.t
}.
End AnalysisResult.

(** ** What the collaborators answer *)

(** The browser's [URL] object, as far as the code reads it. *)
Record URL := { href : string; hostname : string; pathname : string }.

(** [blink.data.scrape]: [{ markdown, metadata, links }], each possibly absent;
    [metadata_title] is [metadata?.title]. *)
Record ScrapeResult := {
  markdown : option string;
  metadata_title : option string;
  links : option (list string)
}.

(** [blink.data.fetch]'s response. *)
Record FetchResponse := { response_status : Z; response_body : option string }.

(** The object of the per-page [generateObject] call; the schema requires all
    fields but the two about pagination, which the code never reads. *)
Record PageObject := {
  po_productCount : Q;
  po_pageType : string;
  po_categories : list string;
  po_confidence : Q;
  po_evidence : list string;
  po_reasoning : string
}.

(** The object of the single-page text call; [estimatedTotalFromPagination]
    is not required by the schema. *)
Record TextObject := {
  to_totalProducts : Q;
  to_productsOnThisPage : Q;
  to_categories : list string;
  to_confidence : Q;
  to_evidence : list string;
  to_reasoning : string;
  to_estimatedTotalFromPagination : option Q
}.

(** The object of the single-page screenshot call. *)
Record VisualObject := {
  vo_visualProductCount : Q;
  vo_visualEvidence : list string;
  vo_layoutType : string;
  vo_confidence : Q
}.

(** The prompts are fixed texts around the interpolated values, so a prompt
    is represented by the values interpolated into it. *)
Inductive Prompt :=
| PagePrompt (pageUrl title excerpt : string)
| TextPrompt (validatedUrl title excerpt : string)
| VisualPrompt (screenshotUrl : string).

(** A thrown [Error]. *)
Record Error := { message : string }.

(** Every call that leaves the component. *)
Inductive Event :=
| EvScrape (url : string)
| EvFetch (url : string)
| EvScreenshot (url : string)
| EvGenerateObject (p : Prompt)
| EvDbCreate (websiteUrl analysisStatus : string)
| EvDbUpdate (productCount : Q) (analysisStatus : string)
| EvDbList
| EvSleep (ms : Z)
| EvDownload (fileName content : string).

Definition History := list Event.

(** How a call or a block ends. *)
Inductive Completion (A : Type) :=
| Normal (a : A)
| Throw (e : Error).
Arguments Normal {A} a.
Arguments Throw {A} e.

Record Platform := {
  URL_new : string -> option URL;
  URL_new_base : string -> string -> option URL;
  data_scrape : History -> string -> Completion ScrapeResult;
  data_fetch : History -> string -> Completion FetchResponse;
  data_screenshot : History -> string -> Completion string;
  ai_generatePage : History -> Prompt -> Completion PageObject;
  ai_generateText : History -> Prompt -> Completion TextObject;
  ai_generateVisual : History -> Prompt -> Completion VisualObject;
  db_create : History -> string -> string -> Completion unit;
  db_update : History -> Q -> string -> Completion unit;
  db_list : History -> Completion unit;
  Number_toString : Q -> string;
  today : string
}.

(** ** The monad of sequential effectful code *)

Definition Run (A : Type) : Type := History -> Completion A * History.

Definition ret {A} (a : A) : Run A := fun h => (Normal a, h).

Definition bind {A B} (m : Run A) (k : A -> Run B) : Run B :=
  fun h => match m h with
           | (Normal a, h') => k a h'
           | (Throw e, h') => (Throw e, h')
           end.

Definition throw {A} (e : Error) : Run A := fun h => (Throw e, h).

(** [try { m } catch (error) { handler error }] *)
Definition try_catch {A} (m : Run A) (handler : Error -> Run A) : Run A :=
  fun h => match m h with
           | (Normal a, h') => (Normal a, h')
           | (Throw e, h') => handler e h'
           end.

(** An external call: its answer may depend on the history, and it is
    recorded whether it answers or throws. *)
Definition call {A} (ev : Event) (answer : History -> Completion A) : Run A :=
  fun h => (answer h, h ++ [ev]).

(** Unfolds the monad's operations in the goal. *)
Ltac run_unfold := unfold try_catch, bind, call, ret, throw.

Declare Scope run_scope.
Delimit Scope run_scope with run.
Notation "x <- m ;; k" := (bind m (fun x => k))
  (at level 100, m at next level, right associativity) : run_scope.
Notation "m ;;; k" := (bind m (fun _ => k))
  (at level 100, right associativity) : run_scope.
Local Open Scope run_scope.

(** ** [validateUrl] (the same in both components) *)

Definition validateUrl (P : Platform) (url : string) : Completion string :=
  let url :=
    if negb (JS.startsWith url "http://") && negb (JS.startsWith url "https://")
    then "https://" +:+ url
    else url in
  match URL_new P url with
  | Some _ => Normal url
  | None => Throw {| message := "Please enter a valid website URL" |}
  end.

(** A pure computation that may throw, inside [Run]. *)
Definition lift {A} (c : Completion A) : Run A := fun h => (c, h).

(** ** Page discovery: [findAllPages] (multi-page component) *)

Module Discovery.

(** The test applied to the lower-cased path of an internal link. *)
Definition link_may_hold_products (path : string) : bool :=
  JS.includes path "/product" ||
  JS.includes path "/item" ||
  JS.includes path "/shop" ||
  JS.includes path "/store" ||
  JS.includes path "/category" ||
  JS.includes path "/collection" ||
  JS.includes path "/catalog" ||
  JS.includes path "/p/" ||
  JS.includes path "/products/" ||
  JS.includes path "/items/" ||
  JS.has_slash_digit path ||
  JS.includes path "page=" ||
  (3 <? String.length path)%nat.

(** The body of [links.forEach]: an unparsable link is skipped. *)
Definition add_link (P : Platform) (domain baseUrl : string)
    (allPages : list string) (link : string) : list string :=
  match URL_new_base P link baseUrl with
  | Some linkUrl =>
      if String.eqb (hostname linkUrl) domain then
        let path := JS.toLowerCase (pathname linkUrl) in
        if link_may_hold_products path
        then JS.Set_add (href linkUrl) allPages
        else allPages
      else allPages
  | None => allPages
  end.

(** The body of [urlMatches.forEach]. *)
Definition add_sitemap_match (P : Platform) (domain : string)
    (allPages : list string) (m : string) : list string :=
  let url := JS.trim (JS.strip_loc m) in
  match URL_new P url with
  | Some urlObj =>
      if String.eqb (hostname urlObj) domain
      then JS.Set_add url allPages
      else allPages
  | None => allPages
  end.

Definition sitemapUrls (baseUrl : string) : list string :=
  [ baseUrl +:+ "/sitemap.xml";
    baseUrl +:+ "/sitemap_index.xml";
    baseUrl +:+ "/product-sitemap.xml" ].

(** [response.status === 200 && response.body] *)
Definition usable_sitemap (r : FetchResponse) : option string :=
  match response_body r with
  | Some body =>
      if (response_status r =? 200)%Z && JS.truthy_string body
      then Some body else None
  | None => None
  end.

(** The loop over the sitemap candidates: a fetch that throws moves on to
    the next candidate, the first usable sitemap ends the loop. *)
Fixpoint try_sitemaps (P : Platform) (domain : string)
    (candidates : list string) (allPages : list string) : Run (list string) :=
  match candidates with
  | [] => ret allPages
  | sitemapUrl :: rest =>
      found <- try_catch
                 (response <- call (EvFetch sitemapUrl)
                                   (fun h => data_fetch P h sitemapUrl) ;;
                  match usable_sitemap response with
                  | Some sitemapText =>
                      ret (Some (fold_left (add_sitemap_match P domain)
                                           (JS.match_loc sitemapText) allPages))
                  | None => ret None
                  end)
                 (fun _ => ret None) ;;
      match found with
      | Some pages => ret pages
      | None => try_sitemaps P domain rest allPages
      end
  end.

Definition is_product_page (url : string) : bool :=
  let path := JS.toLowerCase url in
  JS.includes path "/product" || JS.includes path "/item" || JS.includes path "/p/".

Definition is_category_page (url : string) : bool :=
  let path := JS.toLowerCase url in
  JS.includes path "/category" || JS.includes path "/collection" ||
  JS.includes path "/shop".

(** Product pages first, then category pages, then the others, each bucket
    cut, and the whole cut at 30. *)
Definition prioritize (pages : list string) : list string :=
  let productPages := filter (fun url => Is_true (is_product_page url)) pages in
  let categoryPages := filter (fun url => Is_true (is_category_page url)) pages in
  let otherPages :=
    filter (fun url => Is_true (negb (JS.Array_includes productPages url) &&
                                negb (JS.Array_includes categoryPages url)))
           pages in
  JS.Array_slice0 30
    (JS.Array_slice0 15 productPages ++
     JS.Array_slice0 10 categoryPages ++
     JS.Array_slice0 5 otherPages).

(** The [try] block of [findAllPages]. *)
Definition findAllPages_try (P : Platform) (baseUrl : string) : Run (list string) :=
  match URL_new P baseUrl with
  | None => throw {| message := "Invalid URL" |}
  | Some base =>
      let domain := hostname base in
      let allPages := [baseUrl] in
      scraped <- call (EvScrape baseUrl) (fun h => data_scrape P h baseUrl) ;;
      let allPages :=
        match links scraped with
        | Some (l :: ls) => fold_left (add_link P domain baseUrl) (l :: ls) allPages
        | _ => allPages
        end in
      allPages <- try_sitemaps P domain (sitemapUrls baseUrl) allPages ;;
      ret (prioritize allPages)
  end.

Definition findAllPages (P : Platform) (baseUrl : string) : Run (list string) :=
  try_catch (findAllPages_try P baseUrl) (fun _ => ret [baseUrl]).

End Discovery.

(** ** What a run leaves on the screen: [setError] or [setResult] *)

Inductive Outcome :=
| SetError (msg : string)
| SetResult (r : AnalysisResult.t).

(** [metadata?.title || 'Unknown'] *)
Definition title_or_unknown (s : ScrapeResult) : string :=
  match metadata_title s with
  | Some t => JS.or_string t "Unknown"
  | None => "Unknown"
  end.

(** [!markdown || markdown.length < 100] *)
Definition too_short (md : option string) : bool :=
  match md with
  | Some m => negb (JS.truthy_string m) || (String.length m <? 100)%nat
  | None => true
  end.

(** [await loadHistory()]: the listing's own [try/catch] swallows a failure. *)
Definition loadHistory (P : Platform) : Run unit :=
  try_catch (call EvDbList (db_list P)) (fun _ => ret tt).

(** [error.message || 'Analysis failed. Please try again.'] *)
Definition shown_message (e : Error) : string :=
  JS.or_string (message e) "Analysis failed. Please try again.".

(** A [Record<string, number>] built from [{}] is a finite map; property
    names inherited from [Object.prototype] are outside the model. *)
Definition of_nat_number (n : nat) : Q := inject_Z (Z.of_nat n).

(** The lengths at which the page text is cut before it goes into a prompt. *)
Definition page_excerpt_length : nat := Z.to_nat 20000.
Definition site_excerpt_length : nat := Z.to_nat 25000.

(** ** The multi-page component (src/unnamed/part_001) *)

Module MultiPage.

Definition analyzePageForProducts (P : Platform)
    (pageUrl : string) (pageIndex totalPages : nat) : Run PageAnalysis.t :=
  try_catch
    (scraped <- call (EvScrape pageUrl) (fun h => data_scrape P h pageUrl) ;;
     if too_short (markdown scraped) then
       ret {| PageAnalysis.url := pageUrl;
              PageAnalysis.productCount := 0;
              PageAnalysis.categories := [];
              PageAnalysis.confidence := 0;
              PageAnalysis.evidence := ["No content could be scraped from this page"];
              PageAnalysis.pageType := "unknown";
              PageAnalysis.title := title_or_unknown scraped;
              PageAnalysis.status := page_failed;
              PageAnalysis.errorMessage := Some "Could not scrape page content" |}
     else
       let content := default "" (markdown scraped) in
       let analysisPrompt :=
         PagePrompt pageUrl (title_or_unknown scraped) (JS.slice0 page_excerpt_length content) in
       analysis <- call (EvGenerateObject analysisPrompt)
                        (fun h => ai_generatePage P h analysisPrompt) ;;
       ret {| PageAnalysis.url := pageUrl;
              PageAnalysis.productCount := JS.or_number (po_productCount analysis) 0;
              PageAnalysis.categories := po_categories analysis;
              PageAnalysis.confidence := JS.or_number (po_confidence analysis) 0;
              PageAnalysis.evidence := po_evidence analysis;
              PageAnalysis.pageType := JS.or_string (po_pageType analysis) "unknown";
              PageAnalysis.title := title_or_unknown scraped;
              PageAnalysis.status := page_completed;
              PageAnalysis.errorMessage := None |})
    (fun error =>
       ret {| PageAnalysis.url := pageUrl;
              PageAnalysis.productCount := 0;
              PageAnalysis.categories := [];
              PageAnalysis.confidence := 0;
              PageAnalysis.evidence := ["Analysis failed: " +:+ message error];
              PageAnalysis.pageType := "unknown";
              PageAnalysis.title := "Unknown";
              PageAnalysis.status := page_failed;
              PageAnalysis.errorMessage := Some (message error) |}).

(** The variables the page loop updates. *)
Record Crawl := {
  pageResults : list PageAnalysis.t;
  totalProducts : Q;
  allCategories : list string
}.

Definition crawl_start : Crawl :=
  {| pageResults := []; totalProducts := 0; allCategories := [] |}.

(** What one iteration does with the page's analysis. *)
Definition record_page (c : Crawl) (pageAnalysis : PageAnalysis.t) : Crawl :=
  let results := pageResults c ++ [pageAnalysis] in
  if PageAnalysis.is_completed pageAnalysis then
    {| pageResults := results;
       totalProducts := totalProducts c + PageAnalysis.productCount pageAnalysis;
       allCategories := fold_left (fun s cat => JS.Set_add cat s)
                                  (PageAnalysis.categories pageAnalysis)
                                  (allCategories c) |}
  else
    {| pageResults := results;
       totalProducts := totalProducts c;
       allCategories := allCategories c |}.

(** [for (let i = 0; i < discoveredPages.length; i++)], from index [i] on,
    [remaining] being the pages from that index. *)
Fixpoint analyze_pages (P : Platform) (remaining : list string)
    (i totalPages : nat) (c : Crawl) : Run Crawl :=
  match remaining with
  | [] => ret c
  | pageUrl :: rest =>
      pageAnalysis <- analyzePageForProducts P pageUrl i totalPages ;;
      let c' := record_page c pageAnalysis in
      call (EvSleep 1000) (fun _ => Normal tt) ;;;
      analyze_pages P rest (S i) totalPages c'
  end.

(** [categoryBreakdown[category] = (categoryBreakdown[category] || 0) + n] *)
Definition add_to_category (n : Q) (m : gmap string Q) (category : string)
    : gmap string Q :=
  let old := match m !! category with
             | Some v => JS.or_number v 0
             | None => 0
             end in
  <[category := old + n]> m.

(** The body of [pageResults.forEach] that fills both breakdowns. *)
Definition add_to_breakdowns (acc : gmap string Q * gmap string Q)
    (page : PageAnalysis.t) : gmap string Q * gmap string Q :=
  if PageAnalysis.is_completed page then
    (fold_left (add_to_category (PageAnalysis.productCount page))
               (PageAnalysis.categories page) (fst acc),
     <[PageAnalysis.url page := PageAnalysis.productCount page]> (snd acc))
  else acc.

Definition breakdowns (results : list PageAnalysis.t)
    : gmap string Q * gmap string Q :=
  fold_left add_to_breakdowns results (∅, ∅).

(** [pageResults.filter(p => p.status === 'completed')] *)
Definition completed_pages (results : list PageAnalysis.t) : list PageAnalysis.t :=
  filter (fun p => Is_true (PageAnalysis.is_completed p)) results.

Definition successfulPages (results : list PageAnalysis.t) : nat :=
  length (completed_pages results).

Definition avgConfidence (results : list PageAnalysis.t) : Q :=
  if (0 <? successfulPages results)%nat then
    JS.Math_round
      (fold_left (fun acc p => acc + PageAnalysis.confidence p)
                 (completed_pages results) 0
       / of_nat_number (successfulPages results))
  else 0.

(** Stage 3: the final result, from the discovered pages and the loop's
    variables. *)
Definition finalResult (P : Platform) (discoveredPages : list string)
    (c : Crawl) : AnalysisResult.t :=
  let results := pageResults c in
  let '(categoryBreakdown, pageBreakdown) := breakdowns results in
  let n := Number_toString P in
  {| AnalysisResult.totalProductCount := totalProducts c;
     AnalysisResult.pagesAnalyzed := successfulPages results;
     AnalysisResult.pageResults := results;
     AnalysisResult.sitemap := discoveredPages;
     AnalysisResult.summary :=
       "Found " +:+ n (totalProducts c) +:+ " products across " +:+
       n (of_nat_number (successfulPages results)) +:+ " pages. Analyzed " +:+
       n (of_nat_number (length discoveredPages)) +:+ " pages total with " +:+
       n (avgConfidence results) +:+ "% average confidence.";
     AnalysisResult.status :=
       if (0 <? successfulPages results)%nat then result_completed
       else result_failed;
     AnalysisResult.details :=
       {| Details.totalProducts := totalProducts c;
          Details.productsByCategory := categoryBreakdown;
          Details.analysisMethod := "Multi-page crawl with AI analysis per page";
          Details.confidence := avgConfidence results;
          Details.pageBreakdown := pageBreakdown |} |}.

(** The [try] block of [analyzeWebsite]. *)
Definition analyzeWebsite_try (P : Platform) (url : string) : Run Outcome :=
  validatedUrl <- lift (validateUrl P (JS.trim url)) ;;
  call (EvDbCreate validatedUrl "analyzing")
       (fun h => db_create P h validatedUrl "analyzing") ;;;
  discoveredPages <- Discovery.findAllPages P validatedUrl ;;
  c <- analyze_pages P discoveredPages 0 (length discoveredPages) crawl_start ;;
  let result := finalResult P discoveredPages c in
  call (EvDbUpdate (totalProducts c) "completed")
       (fun h => db_update P h (totalProducts c) "completed") ;;;
  loadHistory P ;;;
  ret (SetResult result).

Definition analyzeWebsite (P : Platform) (url : string) : Run Outcome :=
  if negb (JS.truthy_string (JS.trim url)) then
    ret (SetError "Please enter a website URL")
  else
    try_catch (analyzeWebsite_try P url)
              (fun error => ret (SetError (shown_message error))).

End MultiPage.

(** ** The single-page component (src/src/components/ProductCounter.tsx) *)

Module SinglePage.

(** Stage 4: the final count, from the text object and the visual count. *)
Definition finalProductCount (analysis : TextObject) (visualAnalysis : VisualObject) : Q :=
  let finalProductCount := JS.or_number (to_totalProducts analysis) 0 in
  let finalProductCount :=
    match to_estimatedTotalFromPagination analysis with
    | Some estimate =>
        if JS.truthy_number estimate && JS.gt estimate finalProductCount
        then estimate
        else finalProductCount
    | None => finalProductCount
    end in
  if JS.gt (vo_visualProductCount visualAnalysis) (to_productsOnThisPage analysis) then
    let difference :=
      vo_visualProductCount visualAnalysis - to_productsOnThisPage analysis in
    finalProductCount + difference
  else finalProductCount.

Definition avgConfidence (analysis : TextObject) (visualAnalysis : VisualObject) : Q :=
  JS.Math_round ((to_confidence analysis + vo_confidence visualAnalysis) / 2).

Definition pageAnalysis (validatedUrl title : string)
    (analysis : TextObject) (visualAnalysis : VisualObject) : PageAnalysis.t :=
  {| PageAnalysis.url := validatedUrl;
     PageAnalysis.productCount := finalProductCount analysis visualAnalysis;
     PageAnalysis.categories := to_categories analysis;
     PageAnalysis.confidence := avgConfidence analysis visualAnalysis;
     PageAnalysis.evidence := to_evidence analysis ++ vo_visualEvidence visualAnalysis;
     PageAnalysis.pageType := JS.or_string (vo_layoutType visualAnalysis) "unknown";
     PageAnalysis.title := title;
     PageAnalysis.status := page_completed;
     PageAnalysis.errorMessage := None |}.

Definition finalResult (P : Platform) (validatedUrl title : string)
    (analysis : TextObject) (visualAnalysis : VisualObject) : AnalysisResult.t :=
  let count := finalProductCount analysis visualAnalysis in
  {| AnalysisResult.totalProductCount := count;
     AnalysisResult.pagesAnalyzed := 1;
     AnalysisResult.pageResults :=
       [pageAnalysis validatedUrl title analysis visualAnalysis];
     AnalysisResult.sitemap := [validatedUrl];
     AnalysisResult.summary :=
       "Found " +:+ Number_toString P count +:+ " products. " +:+
       to_reasoning analysis +:+ " Visual analysis: " +:+
       JS.join ", " (vo_visualEvidence visualAnalysis) +:+ ".";
     AnalysisResult.status := result_completed;
     AnalysisResult.details :=
       {| Details.totalProducts := count;
          Details.productsByCategory :=
            fold_left (fun acc cat => <[cat := count]> acc)
                      (to_categories analysis) ∅;
          Details.analysisMethod := "Combined text and visual AI analysis";
          Details.confidence := avgConfidence analysis visualAnalysis;
          Details.pageBreakdown := {[ validatedUrl := count ]} |} |}.

(** The [try] block of [analyzeWebsite]. *)
Definition analyzeWebsite_try (P : Platform) (url : string) : Run Outcome :=
  validatedUrl <- lift (validateUrl P (JS.trim url)) ;;
  call (EvDbCreate validatedUrl "analyzing")
       (fun h => db_create P h validatedUrl "analyzing") ;;;
  screenshotUrl <- call (EvScreenshot validatedUrl)
                        (fun h => data_screenshot P h validatedUrl) ;;
  scraped <- call (EvScrape validatedUrl) (fun h => data_scrape P h validatedUrl) ;;
  if too_short (markdown scraped) then
    throw {| message :=
      "Could not scrape website content. The site may be protected or inaccessible." |}
  else
    let content := default "" (markdown scraped) in
    let title := title_or_unknown scraped in
    let analysisPrompt :=
      TextPrompt validatedUrl title (JS.slice0 site_excerpt_length content) in
    analysis <- call (EvGenerateObject analysisPrompt)
                     (fun h => ai_generateText P h analysisPrompt) ;;
    let visualPrompt := VisualPrompt screenshotUrl in
    visualAnalysis <- call (EvGenerateObject visualPrompt)
                           (fun h => ai_generateVisual P h visualPrompt) ;;
    let result := finalResult P validatedUrl title analysis visualAnalysis in
    call (EvDbUpdate (AnalysisResult.totalProductCount result) "completed")
         (fun h => db_update P h (AnalysisResult.totalProductCount result) "completed") ;;;
    loadHistory P ;;;
    ret (SetResult result).

(** The [catch] block: the message is shown and a failed record is saved,
    a failure to save being swallowed. *)
Definition analyzeWebsite_catch (P : Platform) (url : string) (error : Error)
    : Run Outcome :=
  try_catch (call (EvDbCreate url "failed") (fun h => db_create P h url "failed"))
            (fun _ => ret tt) ;;;
  ret (SetError (shown_message error)).

Definition analyzeWebsite (P : Platform) (url : string) : Run Outcome :=
  if negb (JS.truthy_string (JS.trim url)) then
    ret (SetError "Please enter a website URL")
  else
    try_catch (analyzeWebsite_try P url) (analyzeWebsite_catch P url).

End SinglePage.

(** ** CSV export: [exportResults] (the same in both components) *)

Module CsvExport.

Definition header : list string :=
  ["Page URL"; "Page Title"; "Product Count"; "Page Type"; "Categories";
   "Confidence"; "Status"; "Evidence"].

Definition status_text (s : PageStatus) : string :=
  match s with
  | page_completed => "completed"
  | page_failed => "failed"
  | page_skipped => "skipped"
  end.

Definition row (P : Platform) (page : PageAnalysis.t) : list string :=
  [ PageAnalysis.url page;
    PageAnalysis.title page;
    Number_toString P (PageAnalysis.productCount page);
    PageAnalysis.pageType page;
    JS.join "; " (PageAnalysis.categories page);
    Number_toString P (PageAnalysis.confidence page);
    status_text (PageAnalysis.status page);
    JS.join "; " (PageAnalysis.evidence page) ].

Definition csvData (P : Platform) (result : AnalysisResult.t) : list (list string) :=
  header :: map (row P) (AnalysisResult.pageResults result).

Definition quote (cell : string) : string := JS.dquote +:+ cell +:+ JS.dquote.

Definition csvContent (P : Platform) (result : AnalysisResult.t) : string :=
  JS.join (String (ascii_of_nat 10) EmptyString)
          (map (fun r => JS.join "," (map quote r)) (csvData P result)).

(** [today] is [new Date().toISOString().split('T')[0]]. *)
Definition fileName (P : Platform) : string :=
  "product-analysis-" +:+ today P +:+ ".csv".

(** [result] is the component's state: [None] is [null].  The click on the
    anchor is the download. *)
Definition exportResults (P : Platform) (result : option AnalysisResult.t) : Run unit :=
  match result with
  | None => ret tt
  | Some r =>
      call (EvDownload (fileName P) (csvContent P r)) (fun _ => Normal tt)
  end.

End CsvExport.

(** ** Notions used to state the properties *)

Definition is_model_call (ev : Event) : bool :=
  match ev with EvGenerateObject _ => true | _ => false end.

(** How many model calls a history holds. *)
Definition model_calls (h : History) : nat :=
  length (List.filter is_model_call h).

(** The pages scraped in a history, in order. *)
Fixpoint scraped_urls (h : History) : list string :=
  match h with
  | [] => []
  | EvScrape u :: h' => u :: scraped_urls h'
  | _ :: h' => scraped_urls h'
  end.

(** The downloads triggered in a history. *)
Definition downloads (h : History) : list Event :=
  List.filter (fun ev => match ev with EvDownload _ _ => true | _ => false end) h.

(** A result is on the screen at the end of the run. *)
Definition shows (run : Completion Outcome * History) (r : AnalysisResult.t) : Prop :=
  fst run = Normal (SetResult r).

(** The scraped content is missing or shorter than 100 characters. *)
Definition below_threshold (md : option string) : Prop :=
  match md with
  | None => True
  | Some m => (String.length m < 100)%nat
  end.

(** A list of pages that starts with the base URL: what the set of
    discovered pages is at every step. *)
Definition led_by (baseUrl : string) (pages : list string) : Prop :=
  exists others, pages = baseUrl :: others.

(** The URL a scheme-less input stands for. *)
Definition with_scheme (url : string) : string :=
  if JS.startsWith url "http://" || JS.startsWith url "https://"
  then url else "https://" +:+ url.

(** The sum of a quantity over a list of page results. *)
Definition sum_over (f : PageAnalysis.t -> Q) (l : list PageAnalysis.t) : Q :=
  fold_right (fun p acc => f p + acc) 0 l.

(** The completed results among a list. *)
Definition completed (l : list PageAnalysis.t) : list PageAnalysis.t :=
  List.filter (fun p => bool_decide (PageAnalysis.status p = page_completed)) l.

(** The mean confidence of the completed results, 0 when there is none. *)
Definition mean_confidence (l : list PageAnalysis.t) : Q :=
  match completed l with
  | [] => 0
  | _ :: _ => sum_over PageAnalysis.confidence (completed l)
              / inject_Z (Z.of_nat (length (completed l)))
  end.

(** The count the single-page flow is meant to report: the text total, or
    the pagination estimate when it is larger, plus what the screenshot
    shows beyond the text's count for the page. *)
Definition reconciled (total : Q) (estimate : option Q) (visual onPage : Q) : Q :=
  let base :=
    match estimate with
    | Some e => if Qlt_le_dec total e then e else total
    | None => total
    end in
  if Qlt_le_dec onPage visual then base + (visual - onPage) else base.

(** The product count of the last completed result for a URL. *)
Definition last_completed_count (u : string) (l : list PageAnalysis.t) : option Q :=
  PageAnalysis.productCount <$>
    last (List.filter (fun p => String.eqb (PageAnalysis.url p) u) (completed l)).

(** The multi-page aggregate of a list of page results. *)
Definition aggregate (P : Platform) (discovered : list string)
    (results : list PageAnalysis.t) : AnalysisResult.t :=
  MultiPage.finalResult P discovered
    (fold_left MultiPage.record_page results MultiPage.crawl_start).

(** ** Further notions, for the properties beyond the specification's *)

(** How many pauses a history holds. *)
Definition sleeps (h : History) : nat :=
  length (List.filter (fun ev => match ev with EvSleep _ => true | _ => false end) h).

(** The database writes of a history. *)
Definition is_db_write (ev : Event) : bool :=
  match ev with
  | EvDbCreate _ _ | EvDbUpdate _ _ => true
  | _ => false
  end.

(** How often a URL occurs in a list. *)
Definition occurrences (u : string) (l : list string) : nat :=
  length (List.filter (String.eqb u) l).

(** A URL of the site of [baseUrl]: a link of the base page resolved to the
    base's host, or a string that parses to a URL on that host. *)
Definition internal (P : Platform) (baseUrl u : string) : Prop :=
  exists base parsed,
    URL_new P baseUrl = Some base /\
    hostname parsed = hostname base /\
    ((exists link, URL_new_base P link baseUrl = Some parsed /\ href parsed = u) \/
     URL_new P u = Some parsed).

(** What the set of discovered pages is at every step: it starts with the
    base URL, repeats nothing, and holds internal URLs besides the base. *)
Definition discovered_set (P : Platform) (baseUrl : string) (pages : list string) : Prop :=
  led_by baseUrl pages /\ NoDup pages /\
  Forall (fun u => u = baseUrl \/ internal P baseUrl u) pages.

(** The shape of every result of [analyzePageForProducts]: completed with no
    error message, or failed with nothing counted and a message. *)
Definition well_formed_page (p : PageAnalysis.t) : Prop :=
  (PageAnalysis.status p = page_completed /\ PageAnalysis.errorMessage p = None) \/
  (PageAnalysis.status p = page_failed /\
   PageAnalysis.productCount p = 0%Q /\ PageAnalysis.confidence p = 0%Q /\
   PageAnalysis.categories p = [] /\ PageAnalysis.evidence p <> [] /\
   is_Some (PageAnalysis.errorMessage p)).


(** A page result with another URL and another title. *)
Definition with_url_title (p : PageAnalysis.t) (url title : string) : PageAnalysis.t :=
  {| PageAnalysis.url := url;
     PageAnalysis.productCount := PageAnalysis.productCount p;
     PageAnalysis.categories := PageAnalysis.categories p;
     PageAnalysis.confidence := PageAnalysis.confidence p;
     PageAnalysis.evidence := PageAnalysis.evidence p;
     PageAnalysis.pageType := PageAnalysis.pageType p;
     PageAnalysis.title := title;
     PageAnalysis.status := PageAnalysis.status p;
     PageAnalysis.errorMessage := PageAnalysis.errorMessage p |}.

(** No [<loc>] tag opens inside the sequence. *)
Fixpoint loc_free (s : list ascii) : Prop :=
  match s with
  | [] => True
  | _ :: s' => JS.starts_with_chars (JS.chars "<loc>") s = false /\ loc_free s'
  end.

(** A sitemap text: entries, each made of some text in which no [<loc>]
    opens followed by a location between its tags, and a last piece of
    text. *)
Fixpoint sitemap_of (entries : list (list ascii * list ascii)) (rest : list ascii)
    : list ascii :=
  match entries with
  | [] => rest
  | (before, location) :: entries' =>
      before ++ JS.chars "<loc>" ++ location ++ JS.chars "</loc>"
      ++ sitemap_of entries' rest
  end.

(** A character sequence with no tag and no line break in it. *)
Definition plain_text (s : list ascii) : Prop :=
  Forall (fun c => Ascii.eqb c "<" = false /\ JS.is_line_terminator c = false) s.

(** ** Sample platforms, to run the components on concrete inputs *)

Module Sample.

(** A small URL parser: scheme, host up to the first slash, then the path.
    It agrees with the browser on the URLs used below. *)
Fixpoint split_host (s : string) : string * string :=
  match s with
  | EmptyString => ("", "/")
  | String c s' =>
      if Ascii.eqb c "/" then ("", s)
      else let '(host, path) := split_host s' in (String c host, path)
  end.

Definition has_space (s : string) : bool :=
  existsb JS.is_space (JS.chars s).

Definition parse_with_scheme (scheme s : string) : option URL :=
  let rest := String.substring (String.length scheme) (String.length s) s in
  let '(host, path) := split_host rest in
  if JS.truthy_string host && negb (has_space s)
  then Some {| href := scheme +:+ host +:+ path; hostname := host; pathname := path |}
  else None.

Definition parse (s : string) : option URL :=
  if JS.startsWith s "https://" then parse_with_scheme "https://" s
  else if JS.startsWith s "http://" then parse_with_scheme "http://" s
  else None.

(** A link is absolute, or a path on the host of the base. *)
Definition parse_base (link base : string) : option URL :=
  match parse link with
  | Some u => Some u
  | None =>
      match parse base with
      | Some b =>
          if JS.startsWith link "/"
          then Some {| href := "https://" +:+ hostname b +:+ link;
                       hostname := hostname b; pathname := link |}
          else None
      | None => None
      end
  end.

Fixpoint lookup_page {A} (table : list (string * A)) (url : string) : option A :=
  match table with
  | [] => None
  | (u, a) :: rest => if String.eqb u url then Some a else lookup_page rest url
  end.


Definition answer {A} (o : option A) (why : string) : Completion A :=
  match o with
  | Some a => Normal a
  | None => Throw {| message := why |}
  end.

Definition show_number (q : Q) : string :=
  let r := Qred q in
  if (Z.pos (Qden r) =? 1)%Z then pretty (Qnum r)
  else pretty (Qnum r) +:+ "/" +:+ pretty (Z.pos (Qden r)).

(** A site given by what each URL scrapes to and by its sitemap files; the
    model answers the per-page calls in turn from [pageAnswers], and the two
    calls of the single-page component from [text] and [visual]. *)
Definition platform_with (site : list (string * ScrapeResult))
    (sitemaps : list (string * FetchResponse))
    (pageAnswers : list PageObject)
    (text : option TextObject) (visual : option VisualObject) : Platform :=
  {| URL_new := parse;
     URL_new_base := parse_base;
     data_scrape := fun _ url => answer (lookup_page site url) "scrape failed";
     data_fetch := fun _ url => answer (lookup_page sitemaps url) "fetch failed";
     data_screenshot := fun _ url => Normal ("shot:" +:+ url);
     ai_generatePage := fun h _ => answer (pageAnswers !! model_calls h) "model failed";
     ai_generateText := fun _ _ => answer text "model failed";
     ai_generateVisual := fun _ _ => answer visual "model failed";
     db_create := fun _ _ _ => Normal tt;
     db_update := fun _ _ _ => Normal tt;
     db_list := fun _ => Normal tt;
     Number_toString := show_number;
     today := "2024-01-01" |}.

Definition platform (site : list (string * ScrapeResult))
    (pageAnswers : list PageObject) : Platform :=
  platform_with site [] pageAnswers None None.

(** A page whose text is below the threshold. *)
Definition thin_page : ScrapeResult :=
  {| markdown := Some "Access denied"; metadata_title := None; links := None |}.

(** A page with enough text and the given links. *)
Definition long_text : string :=
  "0123456789012345678901234567890123456789012345678901234567890123456789012345678901234567890123456789".

Definition page (title : string) (ls : list string) : ScrapeResult :=
  {| markdown := Some long_text; metadata_title := Some title; links := Some ls |}.

Definition counted (n c : Q) : PageObject :=
  {| po_productCount := n; po_pageType := "category"; po_categories := ["Shoes"];
     po_confidence := c; po_evidence := ["prices"]; po_reasoning := "listing" |}.

Definition text_answer (total onPage conf : Q) (estimate : option Q) : TextObject :=
  {| to_totalProducts := total; to_productsOnThisPage := onPage;
     to_categories := ["Shoes"]; to_confidence := conf; to_evidence := ["prices"];
     to_reasoning := "listing"; to_estimatedTotalFromPagination := estimate |}.

Definition visual_answer (n conf : Q) : VisualObject :=
  {| vo_visualProductCount := n; vo_visualEvidence := ["a grid"];
     vo_layoutType := "product listing"; vo_confidence := conf |}.

(** Two pages, both analysed. *)
Definition two_pages (a b : PageObject) : Platform :=
  platform [("https://example.com", page "Home" ["/about-us"]);
            ("https://example.com/about-us", page "About" [])]
           [a; b].

(** A shop on a host named [shop.]: its product page is both a product page
    and a category page, so discovery lists it twice. *)
Definition shop (answers : list PageObject) : Platform :=
  platform [("https://shop.example.com", page "Home" ["/product/1"]);
            ("https://shop.example.com/product/1", page "Product" [])]
           answers.

(** One page, for the single-page component. *)
Definition one_page (t : TextObject) (v : VisualObject) : Platform :=
  platform_with [("https://example.com", page "Home" [])] [] [] (Some t) (Some v).

(** A site with a sitemap file: two pages of the site, one of them with
    spaces around it, and a page of another site. *)
Definition sitemap_text : string :=
  "<urlset><url><loc>https://example.com/products/1</loc></url>
<url><loc> https://example.com/blog </loc></url>
<url><loc>https://other.com/x</loc></url></urlset>".

Definition sitemap_site : Platform :=
  platform_with [("https://example.com", page "Home" ["/about-us"; "https://other.com/"])]
                [("https://example.com/sitemap.xml",
                  {| response_status := 200; response_body := Some sitemap_text |})]
                [] None None.

(** A completed page result. *)
Definition some_page : PageAnalysis.t :=
  {| PageAnalysis.url := "https://example.com";
     PageAnalysis.productCount := 4;
     PageAnalysis.categories := ["Shoes"];
     PageAnalysis.confidence := 80;
     PageAnalysis.evidence := ["prices"];
     PageAnalysis.pageType := "category";
     PageAnalysis.title := "Home";
     PageAnalysis.status := page_completed;
     PageAnalysis.errorMessage := None |}.

(** A platform whose database refuses every write. *)
Definition read_only (P : Platform) : Platform :=
  {| URL_new := URL_new P;
     URL_new_base := URL_new_base P;
     data_scrape := data_scrape P;
     data_fetch := data_fetch P;
     data_screenshot := data_screenshot P;
     ai_generatePage := ai_generatePage P;
     ai_generateText := ai_generateText P;
     ai_generateVisual := ai_generateVisual P;
     db_create := fun _ _ _ => Throw {| message := "read-only" |};
     db_update := fun _ _ _ => Throw {| message := "read-only" |};
     db_list := db_list P;
     Number_toString := Number_toString P;
     today := today P |}.

End Sample.

(** ** Numbers and strings *)

Section Numbers.

Local Open Scope Q_scope.

Lemma or_number_zero (x : Q) : JS.or_number x 0 == x.
Proof.
  unfold JS.or_number, JS.truthy_number.
  destruct (Qeq_bool x 0) eqn:E; simpl; [| reflexivity].
  apply Qeq_bool_iff in E. symmetry. exact E.
Qed.

Lemma truthy_number_false (x : Q) : JS.truthy_number x = false -> x == 0.
Proof.
  unfold JS.truthy_number. destruct (Qeq_bool x 0) eqn:E; [| discriminate].
  intros _. now apply Qeq_bool_iff.
Qed.

Lemma gt_true (a b : Q) : JS.gt a b = true -> b < a.
Proof.
  unfold JS.gt. destruct (a ?= b) eqn:E; try discriminate.
  intros _. now apply Qgt_alt.
Qed.

Lemma gt_false (a b : Q) : JS.gt a b = false -> a <= b.
Proof.
  unfold JS.gt. destruct (a ?= b) eqn:E; try discriminate; intros _.
  - apply Qeq_alt in E. rewrite E. apply Qle_refl.
  - apply Qlt_alt in E. now apply Qlt_le_weak.
Qed.

(** [Math.round x] lies within a half of [x], the upper half included. *)
Lemma Math_round_near (x : Q) :
  x - (1 # 2) < JS.Math_round x /\ JS.Math_round x <= x + (1 # 2).
Proof.
  unfold JS.Math_round. split.
  - pose proof (Qlt_floor (x + (1 # 2))) as H.
    rewrite inject_Z_plus in H. change (inject_Z 1) with 1 in H. lra.
  - apply Qfloor_le.
Qed.

Lemma Math_round_integer (x : Q) : exists z : Z, JS.Math_round x = inject_Z z.
Proof. unfold JS.Math_round. eauto. Qed.

(** On an integer, [Math.round] changes nothing. *)
Lemma Math_round_of_integer (x : Q) (z : Z) : x == inject_Z z -> JS.Math_round x == x.
Proof.
  intros Hx. destruct (Math_round_near x) as [Hlo Hhi].
  destruct (Math_round_integer x) as [r Hr]. rewrite Hr in *.
  rewrite Hx in *. 
  assert (z + -1 < r < z + 1)%Z as Hz.
  { split; rewrite Zlt_Qlt, inject_Z_plus;
      [change (inject_Z (-1)) with (-(1)) | change (inject_Z 1) with 1]; lra. }
  assert (r = z) by lia. subst. reflexivity.
Qed.

End Numbers.

(** ** URL validation *)

Lemma with_scheme_cases (url : string) :
  (JS.startsWith url "http://" = false /\ JS.startsWith url "https://" = false /\
   with_scheme url = "https://" +:+ url) \/
  ((JS.startsWith url "http://" = true \/ JS.startsWith url "https://" = true) /\
   with_scheme url = url).
Proof.
  unfold with_scheme.
  destruct (JS.startsWith url "http://"), (JS.startsWith url "https://"); simpl; auto.
Qed.

(** C4.  [validateUrl] puts [https://] in front of an input that starts with
    neither [http://] nor [https://]; it then throws exactly when the string
    so obtained does not parse as a URL, and otherwise returns that string. *)
Theorem validateUrl_spec (P : Platform) (url : string) :
  ((JS.startsWith url "http://" = false /\ JS.startsWith url "https://" = false /\
    with_scheme url = "https://" +:+ url) \/
   ((JS.startsWith url "http://" = true \/ JS.startsWith url "https://" = true) /\
    with_scheme url = url)) /\
  ((URL_new P (with_scheme url) = None /\
    validateUrl P url = Throw {| message := "Please enter a valid website URL" |}) \/
   (is_Some (URL_new P (with_scheme url)) /\
    validateUrl P url = Normal (with_scheme url))).
Proof.
  split; [apply with_scheme_cases |].
  unfold validateUrl, with_scheme.
  destruct (JS.startsWith url "http://"), (JS.startsWith url "https://"); simpl;
    match goal with
    | |- context [URL_new P ?u] => destruct (URL_new P u) eqn:E
    end; eauto.
Qed.

(** ** The single-page flow: count and confidence *)

Section SinglePageNumbers.

Local Open Scope Q_scope.

Lemma finalProductCount_reconciled (a : TextObject) (v : VisualObject) :
  0 <= to_totalProducts a ->
  SinglePage.finalProductCount a v ==
  reconciled (to_totalProducts a) (to_estimatedTotalFromPagination a)
             (vo_visualProductCount v) (to_productsOnThisPage a).
Proof.
  intros Hpos. unfold SinglePage.finalProductCount, reconciled.
  pose proof (or_number_zero (to_totalProducts a)) as H0.
  set (t0 := JS.or_number (to_totalProducts a) 0) in *.
  assert (Hbase :
    match to_estimatedTotalFromPagination a with
    | Some estimate =>
        if JS.truthy_number estimate && JS.gt estimate t0 then estimate else t0
    | None => t0
    end ==
    match to_estimatedTotalFromPagination a with
    | Some e => if Qlt_le_dec (to_totalProducts a) e then e else to_totalProducts a
    | None => to_totalProducts a
    end).
  { destruct (to_estimatedTotalFromPagination a) as [e |]; [| exact H0].
    destruct (JS.truthy_number e) eqn:Ht; simpl.
    - destruct (JS.gt e t0) eqn:Hg.
      + apply gt_true in Hg. destruct (Qlt_le_dec _ e); [reflexivity | lra].
      + apply gt_false in Hg. destruct (Qlt_le_dec _ e); [lra | exact H0].
    - apply truthy_number_false in Ht.
      destruct (Qlt_le_dec _ e); [lra | exact H0]. }
  destruct (JS.gt (vo_visualProductCount v) (to_productsOnThisPage a)) eqn:Hv.
  - apply gt_true in Hv. destruct (Qlt_le_dec _ _); [| lra].
    rewrite Hbase. reflexivity.
  - apply gt_false in Hv. destruct (Qlt_le_dec _ _); [lra |].
    exact Hbase.
Qed.

(** C3.  For a text total that is a count (not negative), the single-page
    flow reports the text total, replaced by the pagination estimate when
    that is larger, plus the excess of the visual count over the text's count
    for the page when there is one.  With total 5, estimate 20 and a visual
    count 2 above the text's count for the page, it reports 22. *)
Theorem single_page_final_count (a : TextObject) (v : VisualObject)
    (Hcount : 0 <= to_totalProducts a) :
  SinglePage.finalProductCount a v ==
    reconciled (to_totalProducts a) (to_estimatedTotalFromPagination a)
               (vo_visualProductCount v) (to_productsOnThisPage a) /\
  (to_totalProducts a == 5 ->
   (exists e, to_estimatedTotalFromPagination a = Some e /\ e == 20) ->
   vo_visualProductCount v - to_productsOnThisPage a == 2 ->
   SinglePage.finalProductCount a v == 22).
Proof.
  pose proof (finalProductCount_reconciled a v Hcount) as H.
  split; [exact H |].
  intros H5 (e & He & H20) H2. rewrite H. unfold reconciled. rewrite He.
  destruct (Qlt_le_dec (to_totalProducts a) e); [| lra].
  destruct (Qlt_le_dec (to_productsOnThisPage a) (vo_visualProductCount v)); lra.
Qed.

Lemma single_page_final_count_witness :
  SinglePage.finalProductCount (Sample.text_answer 5 3 80 (Some 20))
                               (Sample.visual_answer 5 60) == 22.
Proof.
  apply (single_page_final_count (Sample.text_answer 5 3 80 (Some 20))
                                 (Sample.visual_answer 5 60)).
  - simpl. lra.
  - reflexivity.
  - exists 20. split; reflexivity.
  - reflexivity.
Defined.

(** Where the hypothesis of the theorem is used: the code tests the estimate
    for truthiness before it compares, so an estimate of 0 is passed over; it
    could only exceed a negative total. *)
Example zero_estimate_is_passed_over :
  SinglePage.finalProductCount (Sample.text_answer (-5) 0 80 (Some 0))
                               (Sample.visual_answer 0 60) == -5.
Proof. reflexivity. Qed.

(** The claim C7 as it is stated fails: confidences 80 and 61 have mean
    70.5, and the flow reports 71. *)
Lemma single_page_confidence_not_mean :
  ~ (SinglePage.avgConfidence (Sample.text_answer 5 3 80 None)
                              (Sample.visual_answer 5 61)
     == (80 + 61) / 2).
Proof. vm_compute. discriminate. Qed.

(** C7, amended.  The single-page flow reports the mean of the two
    confidence scores rounded to the nearest integer, a half going up: an
    integer within a half of the mean, the upper half included; it is the
    mean itself whenever the mean is an integer. *)
Theorem single_page_confidence (a : TextObject) (v : VisualObject) :
  let mean := (to_confidence a + vo_confidence v) / 2 in
  (exists z : Z, SinglePage.avgConfidence a v = inject_Z z) /\
  mean - (1 # 2) < SinglePage.avgConfidence a v /\
  SinglePage.avgConfidence a v <= mean + (1 # 2) /\
  (forall z : Z, mean == inject_Z z -> SinglePage.avgConfidence a v == mean).
Proof.
  intros mean. unfold SinglePage.avgConfidence. fold mean.
  destruct (Math_round_near mean) as [Hlo Hhi].
  repeat split; auto using Math_round_integer.
  intros z Hz. now apply (Math_round_of_integer _ z).
Qed.

Lemma single_page_confidence_witness :
  SinglePage.avgConfidence (Sample.text_answer 5 3 80 None)
                           (Sample.visual_answer 5 60) == 70.
Proof.
  destruct (single_page_confidence (Sample.text_answer 5 3 80 None)
                                   (Sample.visual_answer 5 60)) as (_ & _ & _ & H).
  rewrite (H 70%Z); reflexivity.
Defined.

End SinglePageNumbers.

(** ** Histories *)

Lemma scraped_urls_app (h1 h2 : History) :
  scraped_urls (h1 ++ h2) = scraped_urls h1 ++ scraped_urls h2.
Proof.
  induction h1 as [| ev h1 IH]; [reflexivity |].
  destruct ev; simpl; rewrite IH; reflexivity.
Qed.

Lemma model_calls_app (h1 h2 : History) :
  model_calls (h1 ++ h2) = (model_calls h1 + model_calls h2)%nat.
Proof. unfold model_calls. now rewrite List.filter_app, length_app. Qed.

Lemma downloads_app (h1 h2 : History) :
  downloads (h1 ++ h2) = downloads h1 ++ downloads h2.
Proof. apply List.filter_app. Qed.

(** ** Per-page analysis *)

Lemma too_short_below (md : option string) :
  below_threshold md -> too_short md = true.
Proof.
  destruct md as [m |]; simpl; [| reflexivity].
  intros H. apply orb_true_iff. right. now apply Nat.ltb_lt.
Qed.

(** C5.  When the scrape of a page answers with no content, or with content
    shorter than 100 characters, [analyzePageForProducts] returns a result
    with status failed, count 0 and a non-empty error message, and the only
    call it has made is the scrape: the model is not called. *)
Theorem short_page_fails (P : Platform) (pageUrl : string) (i n : nat)
    (h : History) (scraped : ScrapeResult)
    (Hscrape : data_scrape P h pageUrl = Normal scraped)
    (Hshort : below_threshold (markdown scraped)) :
  exists page,
    MultiPage.analyzePageForProducts P pageUrl i n h
      = (Normal page, h ++ [EvScrape pageUrl]) /\
    PageAnalysis.status page = page_failed /\
    PageAnalysis.productCount page = 0%Q /\
    (exists msg, PageAnalysis.errorMessage page = Some msg /\ msg <> "") /\
    model_calls (h ++ [EvScrape pageUrl]) = model_calls h.
Proof.
  unfold MultiPage.analyzePageForProducts. run_unfold.
  rewrite Hscrape, (too_short_below _ Hshort).
  eexists. split; [reflexivity |]. simpl.
  repeat split; [eexists; split; [reflexivity | discriminate] |].
  rewrite model_calls_app. change (model_calls [EvScrape pageUrl]) with 0%nat. lia.
Qed.

Lemma short_page_fails_witness :
  exists page,
    MultiPage.analyzePageForProducts
      (Sample.platform [("https://example.com", Sample.thin_page)] [])
      "https://example.com" 0 1 []
      = (Normal page, [EvScrape "https://example.com"]) /\
    PageAnalysis.status page = page_failed.
Proof.
  destruct (short_page_fails
              (Sample.platform [("https://example.com", Sample.thin_page)] [])
              "https://example.com" 0 1 [] Sample.thin_page)
    as (page & Hrun & Hstatus & _).
  - reflexivity.
  - simpl. lia.
  - exists page. split; [exact Hrun | exact Hstatus].
Defined.

(** [analyzePageForProducts] always returns a result for its page, having
    scraped that page and nothing else. *)
Lemma analyzePageForProducts_returns (P : Platform) (pageUrl : string)
    (i n : nat) (h : History) :
  exists page h',
    MultiPage.analyzePageForProducts P pageUrl i n h = (Normal page, h') /\
    PageAnalysis.url page = pageUrl /\
    scraped_urls h' = scraped_urls h ++ [pageUrl].
Proof.
  unfold MultiPage.analyzePageForProducts. run_unfold.
  destruct (data_scrape P h pageUrl) as [scraped | e].
  - destruct (too_short (markdown scraped)).
    + do 2 eexists. split; [reflexivity |]. split; [reflexivity |].
      now rewrite scraped_urls_app.
    + match goal with
      | |- context [ai_generatePage P ?h1 ?p] => destruct (ai_generatePage P h1 p)
      end;
        (do 2 eexists; split; [reflexivity |]; split; [reflexivity |];
         rewrite !scraped_urls_app; simpl; now rewrite app_nil_r).
  - do 2 eexists. split; [reflexivity |]. split; [reflexivity |].
    now rewrite scraped_urls_app.
Qed.

Lemma scrape_failure_recorded (P : Platform) (pageUrl : string) (i n : nat)
    (h : History) (e : Error) :
  data_scrape P h pageUrl = Throw e ->
  exists page h',
    MultiPage.analyzePageForProducts P pageUrl i n h = (Normal page, h') /\
    PageAnalysis.status page = page_failed /\
    PageAnalysis.errorMessage page = Some (message e).
Proof.
  intros H. unfold MultiPage.analyzePageForProducts. run_unfold. rewrite H.
  do 2 eexists. repeat split.
Qed.

Lemma model_failure_recorded (P : Platform) (pageUrl : string) (i n : nat)
    (h : History) (scraped : ScrapeResult) (e : Error) :
  data_scrape P h pageUrl = Normal scraped ->
  too_short (markdown scraped) = false ->
  ai_generatePage P (h ++ [EvScrape pageUrl])
    (PagePrompt pageUrl (title_or_unknown scraped)
       (JS.slice0 page_excerpt_length (default "" (markdown scraped)))) = Throw e ->
  exists page h',
    MultiPage.analyzePageForProducts P pageUrl i n h = (Normal page, h') /\
    PageAnalysis.status page = page_failed /\
    PageAnalysis.errorMessage page = Some (message e).
Proof.
  intros Hs Hlong Hm. unfold MultiPage.analyzePageForProducts. run_unfold.
  rewrite Hs, Hlong, Hm. do 2 eexists. repeat split.
Qed.

(** ** The page loop *)

Lemma pageResults_record_page (c : MultiPage.Crawl) (page : PageAnalysis.t) :
  MultiPage.pageResults (MultiPage.record_page c page)
  = MultiPage.pageResults c ++ [page].
Proof. unfold MultiPage.record_page. now destruct (PageAnalysis.is_completed page). Qed.

Lemma pageResults_recorded (results : list PageAnalysis.t) (c : MultiPage.Crawl) :
  MultiPage.pageResults (fold_left MultiPage.record_page results c)
  = MultiPage.pageResults c ++ results.
Proof.
  revert c. induction results as [| page results IH]; intros c; simpl.
  - now rewrite app_nil_r.
  - rewrite IH, pageResults_record_page, <- app_assoc. reflexivity.
Qed.

(** The loop never throws: it records one result per page, in order, and
    scrapes every page. *)
Lemma analyze_pages_runs (P : Platform) (pages : list string) :
  forall (i n : nat) (c : MultiPage.Crawl) (h : History),
  exists results h',
    MultiPage.analyze_pages P pages i n c h
      = (Normal (fold_left MultiPage.record_page results c), h') /\
    map PageAnalysis.url results = pages /\
    scraped_urls h' = scraped_urls h ++ pages.
Proof.
  induction pages as [| pageUrl rest IH]; intros i n c h; simpl.
  - exists [], h. repeat split. now rewrite app_nil_r.
  - destruct (analyzePageForProducts_returns P pageUrl i n h)
      as (page & h1 & Hrun & Hurl & Hscraped).
    unfold bind at 1. rewrite Hrun. unfold bind at 1, call at 1.
    destruct (IH (S i) n (MultiPage.record_page c page) (h1 ++ [EvSleep 1000]))
      as (results & h' & Hrest & Hurls & Hscraped').
    exists (page :: results), h'. split; [exact Hrest |]. split.
    + simpl. now rewrite Hurl, Hurls.
    + rewrite Hscraped', scraped_urls_app, Hscraped. simpl.
      now rewrite app_nil_r, <- app_assoc.
Qed.

(** C8.  A page whose scrape or model call throws does not stop the run:
    [analyzePageForProducts] never throws, it returns a failed result that
    carries the error's message; and the loop of [analyzeWebsite] goes
    through every page, scraping each and recording a result for each. *)
Theorem page_failure_does_not_abort (P : Platform) :
  (forall pageUrl i n h, exists page h',
     MultiPage.analyzePageForProducts P pageUrl i n h = (Normal page, h') /\
     PageAnalysis.url page = pageUrl) /\
  (forall pageUrl i n h e,
     data_scrape P h pageUrl = Throw e ->
     exists page h',
       MultiPage.analyzePageForProducts P pageUrl i n h = (Normal page, h') /\
       PageAnalysis.status page = page_failed /\
       PageAnalysis.errorMessage page = Some (message e)) /\
  (forall pageUrl i n h scraped e,
     data_scrape P h pageUrl = Normal scraped ->
     too_short (markdown scraped) = false ->
     ai_generatePage P (h ++ [EvScrape pageUrl])
       (PagePrompt pageUrl (title_or_unknown scraped)
          (JS.slice0 page_excerpt_length (default "" (markdown scraped)))) = Throw e ->
     exists page h',
       MultiPage.analyzePageForProducts P pageUrl i n h = (Normal page, h') /\
       PageAnalysis.status page = page_failed /\
       PageAnalysis.errorMessage page = Some (message e)) /\
  (forall pages i n c h, exists c' h',
     MultiPage.analyze_pages P pages i n c h = (Normal c', h') /\
     map PageAnalysis.url (MultiPage.pageResults c')
       = map PageAnalysis.url (MultiPage.pageResults c) ++ pages /\
     scraped_urls h' = scraped_urls h ++ pages).
Proof.
  split; [| split; [| split]].
  - intros pageUrl i n h.
    destruct (analyzePageForProducts_returns P pageUrl i n h)
      as (page & h' & Hrun & Hurl & _). eauto.
  - intros. now apply scrape_failure_recorded.
  - intros. now apply (model_failure_recorded _ _ _ _ _ scraped).
  - intros pages i n c h.
    destruct (analyze_pages_runs P pages i n c h) as (results & h' & Hrun & Hurls & Hs).
    do 2 eexists. split; [exact Hrun |]. split; [| exact Hs].
    now rewrite pageResults_recorded, map_app, Hurls.
Qed.

(** A run in which the first page cannot be scraped and the second is
    analysed all the same. *)
Lemma page_failure_does_not_abort_witness :
  exists c' h',
    MultiPage.analyze_pages
      (Sample.platform [("https://example.com/b", Sample.page "B" [])]
                       [Sample.counted 4 80])
      ["https://example.com/a"; "https://example.com/b"] 0 2
      MultiPage.crawl_start []
    = (Normal c', h') /\
    map PageAnalysis.status (MultiPage.pageResults c') = [page_failed; page_completed] /\
    scraped_urls h' = ["https://example.com/a"; "https://example.com/b"].
Proof.
  destruct (page_failure_does_not_abort
              (Sample.platform [("https://example.com/b", Sample.page "B" [])]
                               [Sample.counted 4 80]))
    as (_ & _ & _ & Hloop).
  destruct (Hloop ["https://example.com/a"; "https://example.com/b"] 0%nat 2%nat
                  MultiPage.crawl_start [])
    as (c' & h' & Hrun & _ & Hscraped).
  exists c', h'. split; [exact Hrun |]. split; [| exact Hscraped].
  vm_compute in Hrun. injection Hrun as <- _. reflexivity.
Defined.

(** ** Page discovery *)

Section DiscoveryFacts.

Variable P : Platform.

Lemma Set_add_led_by (baseUrl x : string) (pages : list string) :
  led_by baseUrl pages -> led_by baseUrl (JS.Set_add x pages).
Proof.
  intros [others ->]. unfold JS.Set_add.
  destruct (bool_decide _); [now exists others |].
  now exists (others ++ [x]).
Qed.

Lemma add_link_led_by (domain baseUrl link : string) (pages : list string) :
  led_by baseUrl pages -> led_by baseUrl (Discovery.add_link P domain baseUrl pages link).
Proof.
  intros H. unfold Discovery.add_link.
  destruct (URL_new_base P link baseUrl) as [linkUrl |]; [| exact H].
  destruct (String.eqb _ _); [| exact H].
  destruct (Discovery.link_may_hold_products _); [| exact H].
  now apply Set_add_led_by.
Qed.

Lemma add_sitemap_match_led_by (domain baseUrl m : string) (pages : list string) :
  led_by baseUrl pages -> led_by baseUrl (Discovery.add_sitemap_match P domain pages m).
Proof.
  intros H. unfold Discovery.add_sitemap_match.
  destruct (URL_new P _) as [urlObj |]; [| exact H].
  destruct (String.eqb _ _); [| exact H].
  now apply Set_add_led_by.
Qed.

Lemma fold_left_led_by (step : list string -> string -> list string)
    (baseUrl : string) (items : list string) :
  (forall pages x, led_by baseUrl pages -> led_by baseUrl (step pages x)) ->
  forall pages, led_by baseUrl pages -> led_by baseUrl (fold_left step items pages).
Proof.
  intros Hstep. induction items as [| x items IH]; intros pages H; simpl; auto.
Qed.

(** The sitemap loop never throws and keeps the base URL in front. *)
Lemma try_sitemaps_led_by (domain baseUrl : string) (candidates : list string) :
  forall (pages : list string) (h : History),
  led_by baseUrl pages ->
  exists pages' h',
    Discovery.try_sitemaps P domain candidates pages h = (Normal pages', h') /\
    led_by baseUrl pages'.
Proof.
  induction candidates as [| sitemapUrl rest IH]; intros pages h Hled; simpl.
  - now exists pages, h.
  - run_unfold. destruct (data_fetch P h sitemapUrl) as [response | e].
    + destruct (Discovery.usable_sitemap response) as [sitemapText |].
      * do 2 eexists. split; [reflexivity |].
        apply fold_left_led_by; [| exact Hled].
        intros. now apply add_sitemap_match_led_by.
      * now apply IH.
    + now apply IH.
Qed.

Lemma prioritize_length (pages : list string) :
  (length (Discovery.prioritize pages) <= 30)%nat.
Proof.
  unfold Discovery.prioritize, JS.Array_slice0. rewrite length_take. lia.
Qed.

Lemma prioritize_keeps_leader (baseUrl : string) (pages : list string) :
  led_by baseUrl pages -> baseUrl ∈ Discovery.prioritize pages.
Proof.
  intros [others ->]. unfold Discovery.prioritize, JS.Array_slice0. cbv zeta.
  rewrite take_ge by (rewrite !length_app, !length_take; lia).
  destruct (Discovery.is_product_page baseUrl) eqn:Hprod.
  { rewrite filter_cons_True by (now rewrite Hprod). simpl. set_solver. }
  destruct (Discovery.is_category_page baseUrl) eqn:Hcat.
  { rewrite (filter_cons_True (fun url => Is_true (Discovery.is_category_page url)))
      by (now rewrite Hcat).
    simpl. set_solver. }
  rewrite !elem_of_app. right. right.
  rewrite filter_cons_True.
  { simpl. set_solver. }
  apply Is_true_true. apply andb_true_iff.
  unfold JS.Array_includes.
  split; apply negb_true_iff, bool_decide_eq_false; rewrite list_elem_of_filter;
    intros [Hin _]; [rewrite Hprod in Hin | rewrite Hcat in Hin]; exact Hin.
Qed.

(** The [try] block throws exactly when the base URL does not parse or its
    scrape throws. *)
Lemma findAllPages_try_cases (baseUrl : string) (h : History) :
  (exists e h', Discovery.findAllPages_try P baseUrl h = (Throw e, h') /\
                (URL_new P baseUrl = None \/ exists e', data_scrape P h baseUrl = Throw e')) \/
  (exists pages h', Discovery.findAllPages_try P baseUrl h
                      = (Normal (Discovery.prioritize pages), h') /\
                    led_by baseUrl pages /\
                    is_Some (URL_new P baseUrl) /\
                    exists scraped, data_scrape P h baseUrl = Normal scraped).
Proof.
  unfold Discovery.findAllPages_try.
  destruct (URL_new P baseUrl) as [base |] eqn:Hbase.
  2: { left. do 2 eexists. split; [reflexivity | now left]. }
  unfold bind, call.
  destruct (data_scrape P h baseUrl) as [scraped | e] eqn:Hscrape.
  2: { left. do 2 eexists. split; [reflexivity | right; eauto]. }
  right.
  match goal with
  | |- context [Discovery.try_sitemaps P ?d ?c ?all] =>
      assert (led_by baseUrl all) as Hled;
      [| destruct (try_sitemaps_led_by d baseUrl c all (h ++ [EvScrape baseUrl]) Hled)
           as (pages' & h' & Hrun & Hled')]
  end.
  { destruct (links scraped) as [[| l ls] |]; try (now exists []).
    apply fold_left_led_by; [| now exists []].
    intros. now apply add_link_led_by. }
  exists pages', h'. rewrite Hrun. unfold ret. eauto.
Qed.

End DiscoveryFacts.

(** [findAllPages] never throws; it returns at most 30 pages, the base URL
    among them, and the base URL alone when its [try] block threw. *)
Lemma findAllPages_returns (P : Platform) (baseUrl : string) (h : History) :
  exists pages h',
    Discovery.findAllPages P baseUrl h = (Normal pages, h') /\
    (length pages <= 30)%nat /\
    baseUrl ∈ pages /\
    (URL_new P baseUrl = None \/ (exists e, data_scrape P h baseUrl = Throw e) ->
     pages = [baseUrl]).
Proof.
  unfold Discovery.findAllPages, try_catch.
  destruct (findAllPages_try_cases P baseUrl h)
    as [(e & h' & Hrun & Hwhy) | (pages & h' & Hrun & Hled & [base Hbase] & scraped & Hs)];
    rewrite Hrun.
  - exists [baseUrl], h'. unfold ret.
    split; [reflexivity |]. split; [simpl; lia |]. split; [constructor | reflexivity].
  - exists (Discovery.prioritize pages), h'.
    split; [reflexivity |]. split; [apply prioritize_length |].
    split; [now apply prioritize_keeps_leader |].
    intros [Hnone | [e He]]; congruence.
Qed.

(** C2.  Whatever the scrape of the base URL and the sitemap fetches answer,
    [findAllPages] returns at most 30 URLs, the base URL among them; when
    discovery fails (the base URL does not parse, or its scrape throws, which
    are the ways its [try] block can throw) it returns the base URL alone. *)
Theorem findAllPages_bounds (P : Platform) (baseUrl : string) (h : History) :
  exists pages h',
    Discovery.findAllPages P baseUrl h = (Normal pages, h') /\
    (length pages <= 30)%nat /\
    baseUrl ∈ pages /\
    (URL_new P baseUrl = None \/ (exists e, data_scrape P h baseUrl = Throw e) ->
     pages = [baseUrl]) /\
    ((exists e h1, Discovery.findAllPages_try P baseUrl h = (Throw e, h1)) ->
     pages = [baseUrl]).
Proof.
  destruct (findAllPages_returns P baseUrl h) as (pages & h' & Hrun & Hlen & Hin & Hfail).
  exists pages, h'. repeat (split; [assumption |]).
  intros (e & h1 & Hthrow). apply Hfail.
  destruct (findAllPages_try_cases P baseUrl h)
    as [(_ & _ & _ & Hwhy) | (ps & h2 & Hok & _)]; [exact Hwhy | congruence].
Qed.

(** A site whose scrape throws: the base URL alone. *)
Lemma findAllPages_bounds_witness :
  fst (Discovery.findAllPages (Sample.platform [] []) "https://example.com" [])
    = Normal ["https://example.com"].
Proof.
  destruct (findAllPages_bounds (Sample.platform [] []) "https://example.com" [])
    as (pages & h' & Hrun & _ & _ & Hfail & _).
  rewrite Hrun. simpl. f_equal. apply Hfail.
  right. eexists. reflexivity.
Defined.

(** Sitemap fetches that throw are not a discovery failure: the links of the
    base page are still returned. *)
Example sitemap_failures_keep_the_links :
  Discovery.findAllPages
    (Sample.two_pages (Sample.counted 4 80) (Sample.counted 6 60))
    "https://example.com" []
  = (Normal ["https://example.com"; "https://example.com/about-us"],
     [EvScrape "https://example.com";
      EvFetch "https://example.com/sitemap.xml";
      EvFetch "https://example.com/sitemap_index.xml";
      EvFetch "https://example.com/product-sitemap.xml"]).
Proof. vm_compute. reflexivity. Qed.

(** ** The aggregate of the multi-page flow *)

Section Aggregate.

Local Open Scope Q_scope.

Lemma completed_pages_completed (results : list PageAnalysis.t) :
  MultiPage.completed_pages results = completed results.
Proof.
  unfold MultiPage.completed_pages, completed.
  induction results as [| p results IH]; [reflexivity |].
  rewrite filter_cons. simpl. unfold PageAnalysis.is_completed in *.
  destruct (bool_decide (PageAnalysis.status p = page_completed)) eqn:E.
  - rewrite decide_True by exact I. now rewrite IH.
  - rewrite decide_False by (intros []). exact IH.
Qed.

Lemma completed_app (l1 l2 : list PageAnalysis.t) :
  completed (l1 ++ l2) = completed l1 ++ completed l2.
Proof. apply List.filter_app. Qed.

Lemma completed_status (p : PageAnalysis.t) (l : list PageAnalysis.t) :
  p ∈ completed l <-> p ∈ l /\ PageAnalysis.status p = page_completed.
Proof.
  unfold completed. rewrite !list_elem_of_In, List.filter_In, bool_decide_eq_true.
  reflexivity.
Qed.

(** The running total after the loop is the total before it plus the counts
    of the completed pages it went through. *)
Lemma totalProducts_recorded (results : list PageAnalysis.t) :
  forall c : MultiPage.Crawl,
  MultiPage.totalProducts (fold_left MultiPage.record_page results c)
  == MultiPage.totalProducts c + sum_over PageAnalysis.productCount (completed results).
Proof.
  induction results as [| p results IH]; intros c; simpl.
  - lra.
  - rewrite IH. unfold MultiPage.record_page, PageAnalysis.is_completed.
    destruct (bool_decide (PageAnalysis.status p = page_completed)); simpl; lra.
Qed.

(** The [reduce] of the confidence average is a sum. *)
Lemma reduce_confidence (l : list PageAnalysis.t) :
  forall a : Q,
  fold_left (fun acc p => acc + PageAnalysis.confidence p) l a
  == a + sum_over PageAnalysis.confidence l.
Proof.
  induction l as [| p l IH]; intros a; simpl.
  - lra.
  - rewrite IH. lra.
Qed.

Lemma Math_round_proper (x y : Q) : x == y -> JS.Math_round x = JS.Math_round y.
Proof. intros H. unfold JS.Math_round. now rewrite H. Qed.

(** The reported average is the rounded mean of the completed pages. *)
Lemma avgConfidence_rounded_mean (results : list PageAnalysis.t) :
  MultiPage.avgConfidence results = JS.Math_round (mean_confidence results).
Proof.
  unfold MultiPage.avgConfidence, MultiPage.successfulPages, mean_confidence.
  rewrite completed_pages_completed.
  destruct (completed results) as [| p l] eqn:E.
  - reflexivity.
  - change (0 <? length (p :: l))%nat with true. cbv iota.
    apply Math_round_proper. unfold of_nat_number.
    now rewrite reduce_confidence, Qplus_0_l.
Qed.

(** The per-page map, key by key: the count of the last completed result
    with that URL. *)
Lemma pageBreakdown_lookup (results : list PageAnalysis.t) (u : string) :
  snd (MultiPage.breakdowns results) !! u = last_completed_count u results.
Proof.
  unfold MultiPage.breakdowns, last_completed_count.
  induction results as [| p results IH] using rev_ind.
  - reflexivity.
  - rewrite fold_left_app, completed_app, List.filter_app. simpl.
    unfold MultiPage.add_to_breakdowns at 1, PageAnalysis.is_completed.
    destruct (bool_decide (PageAnalysis.status p = page_completed)); simpl.
    + destruct (String.eqb_spec (PageAnalysis.url p) u) as [-> | Hne]; simpl.
      * now rewrite lookup_insert_eq, last_snoc.
      * rewrite lookup_insert_ne by exact Hne. now rewrite app_nil_r.
    + now rewrite app_nil_r.
Qed.

Lemma finalResult_pageBreakdown (P : Platform) (discovered : list string)
    (c : MultiPage.Crawl) :
  Details.pageBreakdown (AnalysisResult.details (MultiPage.finalResult P discovered c))
  = snd (MultiPage.breakdowns (MultiPage.pageResults c)).
Proof.
  unfold MultiPage.finalResult.
  now destruct (MultiPage.breakdowns (MultiPage.pageResults c)).
Qed.

Lemma finalResult_fields (P : Platform) (discovered : list string)
    (c : MultiPage.Crawl) :
  let r := MultiPage.finalResult P discovered c in
  AnalysisResult.totalProductCount r = MultiPage.totalProducts c /\
  AnalysisResult.pagesAnalyzed r = length (completed (MultiPage.pageResults c)) /\
  AnalysisResult.pageResults r = MultiPage.pageResults c /\
  AnalysisResult.sitemap r = discovered /\
  AnalysisResult.status r =
    (if (0 <? length (completed (MultiPage.pageResults c)))%nat
     then result_completed else result_failed) /\
  Details.confidence (AnalysisResult.details r)
    = JS.Math_round (mean_confidence (MultiPage.pageResults c)).
Proof.
  unfold MultiPage.finalResult.
  destruct (MultiPage.breakdowns (MultiPage.pageResults c)). simpl.
  unfold MultiPage.successfulPages.
  rewrite avgConfidence_rounded_mean, completed_pages_completed. repeat split.
Qed.

Lemma aggregate_pageResults (P : Platform) (discovered : list string)
    (results : list PageAnalysis.t) :
  AnalysisResult.pageResults (aggregate P discovered results) = results.
Proof.
  unfold aggregate.
  destruct (finalResult_fields P discovered
              (fold_left MultiPage.record_page results MultiPage.crawl_start))
    as (_ & _ & -> & _).
  now rewrite pageResults_recorded.
Qed.

End Aggregate.

(** What [analyzeWebsite] shows, when it shows a result, is the aggregate of
    the results of the discovered pages, one per page and in their order;
    the discovered pages are at most 30 and the validated URL is one. *)
Lemma multi_page_shows_aggregate (P : Platform) (url : string) (h : History)
    (r : AnalysisResult.t) :
  shows (MultiPage.analyzeWebsite P url h) r ->
  exists discovered results,
    r = aggregate P discovered results /\
    map PageAnalysis.url results = discovered /\
    (0 < length discovered <= 30)%nat.
Proof.
  unfold shows, MultiPage.analyzeWebsite.
  destruct (negb _); [discriminate |].
  unfold try_catch, MultiPage.analyzeWebsite_try, lift.
  unfold bind at 1.
  destruct (validateUrl P (JS.trim url)) as [validatedUrl | e]; [| discriminate].
  unfold bind at 1, call at 1.
  destruct (db_create P h validatedUrl "analyzing"); [| discriminate].
  unfold bind at 1.
  destruct (findAllPages_returns P validatedUrl (h ++ [EvDbCreate validatedUrl "analyzing"]))
    as (discovered & h1 & -> & Hlen & Hin & _).
  unfold bind at 1.
  destruct (analyze_pages_runs P discovered 0 (length discovered)
              MultiPage.crawl_start h1)
    as (results & h2 & -> & Hurls & _).
  unfold bind at 1, call at 1.
  destruct (db_update P h2 _ "completed"); [| discriminate].
  unfold bind, loadHistory, try_catch, call, ret.
  destruct (db_list P _); simpl; intros [= <-];
    (exists discovered, results; split; [reflexivity |]; split; [exact Hurls |];
     destruct discovered; [inversion Hin | simpl in *; lia]).
Qed.

Section MultiPageClaims.

Local Open Scope Q_scope.

(** The claim C1 as it is stated fails: with two completed pages of
    confidence 80 and 61, the mean is 70.5 and the result shows 71. *)
Lemma multi_page_confidence_not_mean :
  exists r,
    shows (MultiPage.analyzeWebsite
             (Sample.two_pages (Sample.counted 4 80) (Sample.counted 6 61))
             "example.com" []) r /\
    map PageAnalysis.confidence (completed (AnalysisResult.pageResults r)) = [80; 61] /\
    ~ (Details.confidence (AnalysisResult.details r)
       == mean_confidence (AnalysisResult.pageResults r)).
Proof.
  eexists. split; [vm_compute; reflexivity |].
  split; [vm_compute; reflexivity |].
  vm_compute. discriminate.
Qed.

(** C1, amended.  The aggregate that [analyzeWebsite] builds from any list of
    page results has, as total count, the sum of the counts of the completed
    results, and as confidence the mean of their confidences rounded to the
    nearest integer, a half going up (0 when none is completed): an integer
    within a half of the mean, equal to it when the mean is an integer.  For
    two completed pages with counts 4 and 6 and confidences 80 and 60 the
    total is 10 and the confidence 70.  Every result a run shows is such an
    aggregate. *)
Theorem multi_page_totals (P : Platform) (discovered : list string)
    (results : list PageAnalysis.t) :
  let r := aggregate P discovered results in
  let confidence := Details.confidence (AnalysisResult.details r) in
  AnalysisResult.totalProductCount r
    == sum_over PageAnalysis.productCount (completed results) /\
  (exists z : Z, confidence = inject_Z z) /\
  mean_confidence results - (1 # 2) < confidence /\
  confidence <= mean_confidence results + (1 # 2) /\
  (forall z : Z, mean_confidence results == inject_Z z ->
                 confidence == mean_confidence results) /\
  (Forall2 (fun p nc => PageAnalysis.productCount p == fst nc /\
                        PageAnalysis.confidence p == snd nc)
           (completed results) [(4, 80); (6, 60)] ->
   AnalysisResult.totalProductCount r == 10 /\ confidence == 70) /\
  (forall url h shown, shows (MultiPage.analyzeWebsite P url h) shown ->
     exists discovered' results', shown = aggregate P discovered' results').
Proof.
  intros r confidence.
  destruct (finalResult_fields P discovered
              (fold_left MultiPage.record_page results MultiPage.crawl_start))
    as (Htotal & _ & _ & _ & _ & Hconf).
  fold (aggregate P discovered results) in Htotal, Hconf. fold r in Htotal, Hconf.
  fold confidence in Hconf. rewrite pageResults_recorded in Hconf. simpl in Hconf.
  assert (Hsum : AnalysisResult.totalProductCount r
                 == sum_over PageAnalysis.productCount (completed results)).
  { rewrite Htotal, totalProducts_recorded. simpl. lra. }
  destruct (Math_round_near (mean_confidence results)) as [Hlo Hhi].
  rewrite <- Hconf in Hlo, Hhi.
  assert (Hint : forall z : Z, mean_confidence results == inject_Z z ->
                               confidence == mean_confidence results).
  { intros z Hz. rewrite Hconf. now apply (Math_round_of_integer _ z). }
  split; [exact Hsum |].
  split; [rewrite Hconf; apply Math_round_integer |].
  split; [exact Hlo |]. split; [exact Hhi |]. split; [exact Hint |].
  split.
  - intros Hex. rewrite Hsum.
    assert (Hmean : mean_confidence results == 70).
    { unfold mean_confidence.
      inversion Hex as [| p1 nc1 l1 l1' [_ Hc1] Hex1 E1 E1']; subst.
      inversion Hex1 as [| p2 nc2 l2 l2' [_ Hc2] Hex2 E2 E2']; subst.
      inversion Hex2; subst. simpl in *. rewrite Hc1, Hc2. reflexivity. }
    split.
    + inversion Hex as [| p1 nc1 l1 l1' [Hn1 _] Hex1 E1 E1']; subst.
      inversion Hex1 as [| p2 nc2 l2 l2' [Hn2 _] Hex2 E2 E2']; subst.
      inversion Hex2; subst. simpl in *. rewrite Hn1, Hn2. reflexivity.
    + rewrite (Hint 70%Z); [exact Hmean |]. rewrite Hmean. reflexivity.
  - intros url h shown Hshown.
    destruct (multi_page_shows_aggregate P url h shown Hshown)
      as (d & rs & -> & _). eauto.
Qed.

(** The example of the specification, on a run. *)
Lemma multi_page_totals_witness :
  exists r,
    shows (MultiPage.analyzeWebsite
             (Sample.two_pages (Sample.counted 4 80) (Sample.counted 6 60))
             "example.com" []) r /\
    AnalysisResult.totalProductCount r == 10 /\
    Details.confidence (AnalysisResult.details r) == 70.
Proof.
  eexists. split; [vm_compute; reflexivity |].
  match goal with
  | |- AnalysisResult.totalProductCount ?r == _ /\ _ =>
      change r with
        (aggregate
           (Sample.two_pages (Sample.counted 4 80) (Sample.counted 6 60))
           (AnalysisResult.sitemap r) (AnalysisResult.pageResults r))
  end.
  match goal with
  | |- AnalysisResult.totalProductCount (aggregate ?P ?d ?rs) == _ /\ _ =>
      destruct (multi_page_totals P d rs) as (_ & _ & _ & _ & _ & Hex & _)
  end.
  apply Hex. repeat constructor.
Defined.

End MultiPageClaims.

(** ** The shape of the result *)

(** What the single-page [analyzeWebsite] shows, when it shows a result. *)
Lemma single_page_shows_finalResult (P : Platform) (url : string) (h : History)
    (r : AnalysisResult.t) :
  shows (SinglePage.analyzeWebsite P url h) r ->
  exists validatedUrl title analysis visualAnalysis,
    r = SinglePage.finalResult P validatedUrl title analysis visualAnalysis.
Proof.
  unfold shows, SinglePage.analyzeWebsite.
  destruct (negb _); [discriminate |].
  unfold try_catch, SinglePage.analyzeWebsite_try, SinglePage.analyzeWebsite_catch, lift.
  unfold bind at 1.
  destruct (validateUrl P (JS.trim url)) as [validatedUrl | e].
  2: { unfold bind, try_catch, call, ret. destruct (db_create P h url "failed"); discriminate. }
  unfold bind at 1, call at 1.
  destruct (db_create P h validatedUrl "analyzing").
  2: { unfold bind, try_catch, call, ret. destruct (db_create P _ url "failed"); discriminate. }
  unfold bind at 1, call at 1.
  destruct (data_screenshot P _ validatedUrl) as [screenshotUrl | e].
  2: { unfold bind, try_catch, call, ret. destruct (db_create P _ url "failed"); discriminate. }
  unfold bind at 1, call at 1.
  destruct (data_scrape P _ validatedUrl) as [scraped | e].
  2: { unfold bind, try_catch, call, ret. destruct (db_create P _ url "failed"); discriminate. }
  destruct (too_short (markdown scraped)).
  { unfold throw, bind, try_catch, call, ret. destruct (db_create P _ url "failed"); discriminate. }
  unfold bind at 1, call at 1.
  destruct (ai_generateText P _ _) as [analysis | e].
  2: { unfold bind, try_catch, call, ret. destruct (db_create P _ url "failed"); discriminate. }
  unfold bind at 1, call at 1.
  destruct (ai_generateVisual P _ _) as [visualAnalysis | e].
  2: { unfold bind, try_catch, call, ret. destruct (db_create P _ url "failed"); discriminate. }
  unfold bind at 1, call at 1.
  destruct (db_update P _ _ "completed").
  2: { unfold bind, try_catch, call, ret. destruct (db_create P _ url "failed"); discriminate. }
  unfold bind, loadHistory, try_catch, call, ret.
  destruct (db_list P _); simpl; intros [= <-]; eauto.
Qed.

(** C9.  The result the multi-page flow shows has status completed when at
    least one page result is completed and failed otherwise; the single-page
    flow always shows completed; neither flow shows partial. *)
Theorem result_status (P : Platform) (url : string) (h : History)
    (r : AnalysisResult.t) :
  (shows (MultiPage.analyzeWebsite P url h) r ->
   (AnalysisResult.status r = result_completed /\
    exists p, p ∈ AnalysisResult.pageResults r /\
              PageAnalysis.status p = page_completed) \/
   (AnalysisResult.status r = result_failed /\
    forall p, p ∈ AnalysisResult.pageResults r ->
              PageAnalysis.status p <> page_completed)) /\
  (shows (SinglePage.analyzeWebsite P url h) r ->
   AnalysisResult.status r = result_completed) /\
  (shows (MultiPage.analyzeWebsite P url h) r \/
   shows (SinglePage.analyzeWebsite P url h) r ->
   AnalysisResult.status r <> result_partial).
Proof.
  assert (Hmulti : shows (MultiPage.analyzeWebsite P url h) r ->
    (AnalysisResult.status r = result_completed /\
     exists p, p ∈ AnalysisResult.pageResults r /\
               PageAnalysis.status p = page_completed) \/
    (AnalysisResult.status r = result_failed /\
     forall p, p ∈ AnalysisResult.pageResults r ->
               PageAnalysis.status p <> page_completed)).
  { intros Hshown.
    destruct (multi_page_shows_aggregate P url h r Hshown) as (d & rs & -> & _).
    rewrite aggregate_pageResults. unfold aggregate.
    destruct (finalResult_fields P d (fold_left MultiPage.record_page rs MultiPage.crawl_start))
      as (_ & _ & _ & _ & -> & _).
    rewrite pageResults_recorded. simpl.
    destruct (completed rs) as [| p l] eqn:E; simpl.
    - right. split; [reflexivity |]. intros p Hin Hp.
      assert (p ∈ completed rs) as Hc by (now apply completed_status).
      rewrite E in Hc. inversion Hc.
    - left. split; [reflexivity |]. exists p. apply completed_status.
      rewrite E. constructor. }
  assert (Hsingle : shows (SinglePage.analyzeWebsite P url h) r ->
                    AnalysisResult.status r = result_completed).
  { intros Hshown.
    destruct (single_page_shows_finalResult P url h r Hshown) as (u & t & a & v & ->).
    reflexivity. }
  split; [exact Hmulti |]. split; [exact Hsingle |].
  intros [Hm | Hs].
  - destruct (Hmulti Hm) as [[-> _] | [-> _]]; discriminate.
  - rewrite (Hsingle Hs). discriminate.
Qed.

(** A run of each flow. *)
Lemma result_status_witness :
  exists r r',
    shows (MultiPage.analyzeWebsite
             (Sample.two_pages (Sample.counted 4 80) (Sample.counted 6 60))
             "example.com" []) r /\
    AnalysisResult.status r <> result_partial /\
    shows (SinglePage.analyzeWebsite
             (Sample.one_page (Sample.text_answer 5 3 80 (Some 20))
                              (Sample.visual_answer 5 60))
             "example.com" []) r' /\
    AnalysisResult.status r' = result_completed.
Proof.
  do 2 eexists.
  split; [vm_compute; reflexivity |].
  split.
  { eapply (result_status
              (Sample.two_pages (Sample.counted 4 80) (Sample.counted 6 60))
              "example.com" []).
    left. vm_compute. reflexivity. }
  split; [vm_compute; reflexivity |].
  eapply (result_status
            (Sample.one_page (Sample.text_answer 5 3 80 (Some 20))
                             (Sample.visual_answer 5 60))
            "example.com" []).
  vm_compute. reflexivity.
Defined.

Section PageBreakdown.

Local Open Scope Q_scope.

(** The claim C10 as it is stated fails.  On a host named [shop.] the
    product page is listed twice; the model counts 3 products on it the
    first time and 5 the second, both results are completed, and the
    per-page map holds 5 for that URL, not the 3 of the first result. *)
Lemma pageBreakdown_not_every_count :
  exists r p,
    shows (MultiPage.analyzeWebsite
             (Sample.shop [Sample.counted 3 80; Sample.counted 1 80; Sample.counted 5 80])
             "shop.example.com" []) r /\
    AnalysisResult.pageResults r !! 0%nat = Some p /\
    PageAnalysis.status p = page_completed /\
    PageAnalysis.productCount p == 3 /\
    exists n, Details.pageBreakdown (AnalysisResult.details r) !! PageAnalysis.url p
              = Some n /\ n == 5.
Proof.
  do 2 eexists. split; [vm_compute; reflexivity |].
  split; [reflexivity |]. split; [reflexivity |]. split; [reflexivity |].
  eexists. split; [vm_compute; reflexivity | reflexivity].
Qed.

Lemma last_completed_count_Some (u : string) (results : list PageAnalysis.t) :
  is_Some (last_completed_count u results) <->
  exists p, p ∈ completed results /\ PageAnalysis.url p = u.
Proof.
  unfold last_completed_count. rewrite fmap_is_Some, last_is_Some. split.
  - intros Hne.
    destruct (List.filter _ (completed results)) as [| p l] eqn:E; [now destruct Hne |].
    assert (List.In p (List.filter (fun p => String.eqb (PageAnalysis.url p) u)
                                   (completed results))) as Hin
      by (rewrite E; now left).
    apply List.filter_In in Hin as [Hin Hu].
    exists p. split; [now apply list_elem_of_In | now apply String.eqb_eq].
  - intros (p & Hin & Hu) E.
    assert (List.In p (List.filter (fun p => String.eqb (PageAnalysis.url p) u)
                                   (completed results))) as Hin'.
    { apply List.filter_In. split; [now apply list_elem_of_In | now apply String.eqb_eq]. }
    rewrite E in Hin'. destruct Hin'.
Qed.

(** Among results with distinct URLs, the last one for a URL is the only
    one. *)
Lemma last_of_distinct (l : list PageAnalysis.t) (p : PageAnalysis.t) :
  NoDup (map PageAnalysis.url l) -> p ∈ l ->
  last (List.filter (fun q => String.eqb (PageAnalysis.url q) (PageAnalysis.url p)) l)
  = Some p.
Proof.
  induction l as [| q l IH]; intros Hnd Hin; [inversion Hin |].
  simpl in Hnd. apply NoDup_cons in Hnd as [Hq Hnd].
  assert (Hnone : forall x, x ∈ l -> PageAnalysis.url x = PageAnalysis.url q -> False).
  { intros x Hx Hux. apply Hq. rewrite <- Hux. now apply list_elem_of_fmap_2. }
  simpl. apply elem_of_cons in Hin as [-> | Hin].
  - rewrite String.eqb_refl.
    replace (List.filter _ l) with (@nil PageAnalysis.t); [reflexivity |].
    symmetry. clear IH Hq Hnd. induction l as [| x l IHl]; [reflexivity |].
    simpl. destruct (String.eqb_spec (PageAnalysis.url x) (PageAnalysis.url q)) as [E | _].
    + exfalso. apply (Hnone x); [constructor | exact E].
    + apply IHl. intros y Hy. apply Hnone. now constructor.
  - destruct (String.eqb_spec (PageAnalysis.url q) (PageAnalysis.url p)) as [E | _].
    + exfalso. apply (Hnone p Hin). now symmetry.
    + now apply IH.
Qed.

(** C10, amended.  The result the multi-page flow shows holds one page result
    per discovered URL, in discovery order; [pagesAnalyzed] is the number of
    completed results; the keys of the per-page map are exactly the URLs of
    the completed results, and each key maps to the count of the last
    completed result with that URL, which is the count of every completed
    result when their URLs are distinct. *)
Theorem multi_page_result_shape (P : Platform) (url : string) (h : History)
    (r : AnalysisResult.t)
    (Hshown : shows (MultiPage.analyzeWebsite P url h) r) :
  let results := AnalysisResult.pageResults r in
  let pageBreakdown := Details.pageBreakdown (AnalysisResult.details r) in
  map PageAnalysis.url results = AnalysisResult.sitemap r /\
  length results = length (AnalysisResult.sitemap r) /\
  AnalysisResult.pagesAnalyzed r = length (completed results) /\
  (forall u, is_Some (pageBreakdown !! u) <->
             exists p, p ∈ completed results /\ PageAnalysis.url p = u) /\
  (forall u, pageBreakdown !! u = last_completed_count u results) /\
  (NoDup (map PageAnalysis.url (completed results)) ->
   forall p, p ∈ completed results ->
             pageBreakdown !! PageAnalysis.url p = Some (PageAnalysis.productCount p)).
Proof.
  destruct (multi_page_shows_aggregate P url h r Hshown) as (d & rs & -> & Hurls & _).
  intros results pageBreakdown. subst results pageBreakdown.
  rewrite aggregate_pageResults. unfold aggregate.
  rewrite finalResult_pageBreakdown.
  destruct (finalResult_fields P d (fold_left MultiPage.record_page rs MultiPage.crawl_start))
    as (_ & -> & _ & -> & _).
  rewrite pageResults_recorded. simpl.
  split; [exact Hurls |].
  split; [rewrite <- Hurls; now rewrite length_map |].
  split; [reflexivity |].
  split; [intros u; rewrite pageBreakdown_lookup; apply last_completed_count_Some |].
  split; [intros u; apply pageBreakdown_lookup |].
  intros Hnd p Hp. rewrite pageBreakdown_lookup. unfold last_completed_count.
  now rewrite (last_of_distinct _ p Hnd Hp).
Qed.

Lemma multi_page_result_shape_witness :
  exists r,
    shows (MultiPage.analyzeWebsite
             (Sample.shop [Sample.counted 3 80; Sample.counted 1 80; Sample.counted 5 80])
             "shop.example.com" []) r /\
    map PageAnalysis.url (AnalysisResult.pageResults r)
      = ["https://shop.example.com/product/1"; "https://shop.example.com";
         "https://shop.example.com/product/1"] /\
    AnalysisResult.pagesAnalyzed r = 3%nat.
Proof.
  eexists. split; [vm_compute; reflexivity |].
  match goal with
  | |- map _ (AnalysisResult.pageResults ?r) = _ /\ _ =>
      destruct (multi_page_result_shape
                  (Sample.shop [Sample.counted 3 80; Sample.counted 1 80; Sample.counted 5 80])
                  "shop.example.com" [] r)
        as (Hurls & _ & Hn & _); [vm_compute; reflexivity |]
  end.
  split; [rewrite Hurls | rewrite Hn]; reflexivity.
Defined.

End PageBreakdown.

(** Neither flow shows a result without page results. *)
Lemma shown_result_has_pages (P : Platform) (url : string) (h : History)
    (r : AnalysisResult.t) :
  shows (MultiPage.analyzeWebsite P url h) r \/
  shows (SinglePage.analyzeWebsite P url h) r ->
  AnalysisResult.pageResults r <> [].
Proof.
  intros [Hm | Hs].
  - destruct (multi_page_shows_aggregate P url h r Hm) as (d & rs & -> & Hurls & Hlen).
    rewrite aggregate_pageResults. intros ->. subst d. simpl in Hlen. lia.
  - destruct (single_page_shows_finalResult P url h r Hs) as (u & t & a & v & ->).
    discriminate.
Qed.

(** ** CSV export *)

(** The claim C6 as it is stated fails: for a result with no page result the
    export still triggers a download, of a file that holds the header row. *)
Lemma export_of_empty_result_downloads :
  exists r file,
    AnalysisResult.pageResults r = [] /\
    downloads (snd (CsvExport.exportResults (Sample.platform [] []) (Some r) []))
      = [EvDownload "product-analysis-2024-01-01.csv" file].
Proof.
  exists (aggregate (Sample.platform [] []) [] []). eexists.
  split; [reflexivity |]. vm_compute. reflexivity.
Qed.

Lemma csvContent_of_empty (P : Platform) (r : AnalysisResult.t) :
  AnalysisResult.pageResults r = [] ->
  CsvExport.csvContent P r = JS.join "," (map CsvExport.quote CsvExport.header).
Proof. intros H. unfold CsvExport.csvContent, CsvExport.csvData. now rewrite H. Qed.

(** C6, amended.  [exportResults] does nothing when the result is null; for
    any other result it triggers exactly one download, of a file named after
    the day, and when the result has no page result the file holds the
    header row alone. *)
Theorem exportResults_downloads (P : Platform) (h : History) :
  CsvExport.exportResults P None h = (Normal tt, h) /\
  (forall r,
     CsvExport.exportResults P (Some r) h
       = (Normal tt, h ++ [EvDownload (CsvExport.fileName P) (CsvExport.csvContent P r)]) /\
     downloads (snd (CsvExport.exportResults P (Some r) h))
       = downloads h ++ [EvDownload (CsvExport.fileName P) (CsvExport.csvContent P r)]) /\
  (forall r, AnalysisResult.pageResults r = [] ->
     CsvExport.csvContent P r = JS.join "," (map CsvExport.quote CsvExport.header)).
Proof.
  split; [reflexivity |]. split.
  - intros r. split; [reflexivity |].
    unfold CsvExport.exportResults, call. simpl. now rewrite downloads_app.
  - intros r. apply csvContent_of_empty.
Qed.

Lemma exportResults_downloads_witness :
  downloads (snd (CsvExport.exportResults (Sample.platform [] []) None [])) = [] /\
  length (downloads (snd (CsvExport.exportResults (Sample.platform [] [])
                            (Some (aggregate (Sample.platform [] []) [] [])) []))) = 1%nat.
Proof.
  destruct (exportResults_downloads (Sample.platform [] []) []) as (Hnull & Hsome & _).
  split.
  - rewrite Hnull. reflexivity.
  - destruct (Hsome (aggregate (Sample.platform [] []) [] [])) as [_ ->]. reflexivity.
Defined.

(** * Further properties of the code *)

(** ** Discovery: what the set of pages holds *)

Section DiscoverySet.

Variable P : Platform.

Lemma Set_add_NoDup (x : string) (pages : list string) :
  NoDup pages -> NoDup (JS.Set_add x pages).
Proof.
  intros H. unfold JS.Set_add. destruct (bool_decide (x ∈ pages)) eqn:E; [exact H |].
  apply bool_decide_eq_false in E. apply NoDup_app. repeat split.
  - exact H.
  - intros y Hy Hx. apply list_elem_of_singleton in Hx. now subst.
  - apply NoDup_singleton.
Qed.

Lemma Set_add_discovered (baseUrl x : string) (pages : list string) :
  internal P baseUrl x ->
  discovered_set P baseUrl pages -> discovered_set P baseUrl (JS.Set_add x pages).
Proof.
  intros Hx (Hled & Hnd & Hall). split; [now apply Set_add_led_by |].
  split; [now apply Set_add_NoDup |].
  unfold JS.Set_add. destruct (bool_decide (x ∈ pages)); [exact Hall |].
  apply Forall_app. split; [exact Hall |]. constructor; [now right | constructor].
Qed.

Lemma add_link_discovered (base : URL) (baseUrl link : string) (pages : list string) :
  URL_new P baseUrl = Some base ->
  discovered_set P baseUrl pages ->
  discovered_set P baseUrl (Discovery.add_link P (hostname base) baseUrl pages link).
Proof.
  intros Hbase H. unfold Discovery.add_link.
  destruct (URL_new_base P link baseUrl) as [linkUrl |] eqn:Hlink; [| exact H].
  destruct (String.eqb_spec (hostname linkUrl) (hostname base)) as [Hhost | _]; [| exact H].
  destruct (Discovery.link_may_hold_products _); [| exact H].
  apply Set_add_discovered; [| exact H].
  exists base, linkUrl. repeat split; eauto.
Qed.

Lemma add_sitemap_match_discovered (base : URL) (baseUrl m : string)
    (pages : list string) :
  URL_new P baseUrl = Some base ->
  discovered_set P baseUrl pages ->
  discovered_set P baseUrl (Discovery.add_sitemap_match P (hostname base) pages m).
Proof.
  intros Hbase H. unfold Discovery.add_sitemap_match.
  destruct (URL_new P (JS.trim (JS.strip_loc m))) as [urlObj |] eqn:Hurl; [| exact H].
  destruct (String.eqb_spec (hostname urlObj) (hostname base)) as [Hhost | _]; [| exact H].
  apply Set_add_discovered; [| exact H].
  exists base, urlObj. repeat split; eauto.
Qed.

Lemma fold_left_invariant {A} (I : list string -> Prop)
    (step : list string -> A -> list string) (items : list A) :
  (forall pages x, I pages -> I (step pages x)) ->
  forall pages, I pages -> I (fold_left step items pages).
Proof.
  intros Hstep. induction items as [| x items IH]; intros pages H; simpl; auto.
Qed.

(** The sitemap loop fetches the candidates in order and stops at the first
    usable one. *)
Lemma try_sitemaps_trace (I : list string -> Prop) (domain : string)
    (candidates : list string) :
  (forall pages m, I pages -> I (Discovery.add_sitemap_match P domain pages m)) ->
  forall (pages : list string) (h : History),
  I pages ->
  exists pages' k,
    Discovery.try_sitemaps P domain candidates pages h
      = (Normal pages', h ++ map EvFetch (take k candidates)) /\
    I pages' /\ (k <= length candidates)%nat.
Proof.
  intros Hstep.
  induction candidates as [| sitemapUrl rest IH]; intros pages h HI; simpl.
  - exists pages, 0%nat. simpl. rewrite app_nil_r. auto.
  - run_unfold.
    assert (Hnext : exists pages' k,
      Discovery.try_sitemaps P domain rest pages (h ++ [EvFetch sitemapUrl])
        = (Normal pages', h ++ map EvFetch (take k (sitemapUrl :: rest))) /\
      I pages' /\ (k <= S (length rest))%nat).
    { destruct (IH pages (h ++ [EvFetch sitemapUrl]) HI) as (pages' & k & Hrun & HI' & Hk).
      exists pages', (S k). simpl. rewrite Hrun, <- app_assoc. simpl.
      repeat split; [exact HI' | lia]. }
    destruct (data_fetch P h sitemapUrl) as [response | e]; [| exact Hnext].
    destruct (Discovery.usable_sitemap response) as [sitemapText |]; [| exact Hnext].
    eexists _, 1%nat. simpl. split; [reflexivity |]. split; [| lia].
    now apply fold_left_invariant.
Qed.

(** What the [try] block of [findAllPages] does when the base URL parses and
    its scrape answers. *)
Lemma findAllPages_try_trace (baseUrl : string) (h : History) (base : URL)
    (scraped : ScrapeResult) :
  URL_new P baseUrl = Some base ->
  data_scrape P h baseUrl = Normal scraped ->
  exists pages k,
    Discovery.findAllPages P baseUrl h
      = (Normal (Discovery.prioritize pages),
         h ++ EvScrape baseUrl :: map EvFetch (take k (Discovery.sitemapUrls baseUrl))) /\
    discovered_set P baseUrl pages /\ (k <= 3)%nat.
Proof.
  intros Hbase Hscrape.
  unfold Discovery.findAllPages, Discovery.findAllPages_try, try_catch.
  rewrite Hbase. unfold bind, call. rewrite Hscrape.
  assert (Hstart : discovered_set P baseUrl [baseUrl]).
  { split; [now exists [] |]. split; [apply NoDup_singleton |].
    constructor; [now left | constructor]. }
  match goal with
  | |- context [Discovery.try_sitemaps P ?d ?c ?all] =>
      assert (discovered_set P baseUrl all) as Hset;
      [| destruct (try_sitemaps_trace (discovered_set P baseUrl) d c
                     (fun pages m => add_sitemap_match_discovered base baseUrl m pages Hbase)
                     all (h ++ [EvScrape baseUrl]) Hset)
           as (pages' & k & Hrun & Hset' & Hk)]
  end.
  { destruct (links scraped) as [[| l ls] |]; try exact Hstart.
    apply (fold_left_invariant (discovered_set P baseUrl)); [| exact Hstart].
    intros. now apply add_link_discovered. }
  exists pages', k. rewrite Hrun. unfold ret. rewrite <- app_assoc. simpl.
  repeat split; try apply Hset'. exact Hk.
Qed.

End DiscoverySet.

(** The three ways [findAllPages] can go. *)
Lemma findAllPages_cases (P : Platform) (baseUrl : string) (h : History) :
  (URL_new P baseUrl = None /\
   Discovery.findAllPages P baseUrl h = (Normal [baseUrl], h)) \/
  (is_Some (URL_new P baseUrl) /\ (exists e, data_scrape P h baseUrl = Throw e) /\
   Discovery.findAllPages P baseUrl h = (Normal [baseUrl], h ++ [EvScrape baseUrl])) \/
  (exists pages k,
     Discovery.findAllPages P baseUrl h
       = (Normal (Discovery.prioritize pages),
          h ++ EvScrape baseUrl :: map EvFetch (take k (Discovery.sitemapUrls baseUrl))) /\
     discovered_set P baseUrl pages /\ (k <= 3)%nat).
Proof.
  destruct (URL_new P baseUrl) as [base |] eqn:Hbase.
  - destruct (data_scrape P h baseUrl) as [scraped | e] eqn:Hscrape.
    + right. right. now apply (findAllPages_try_trace P baseUrl h base scraped).
    + right. left. split; [eauto |]. split; [eauto |].
      unfold Discovery.findAllPages, Discovery.findAllPages_try, try_catch, bind, call.
      now rewrite Hbase, Hscrape.
  - left. split; [reflexivity |].
    unfold Discovery.findAllPages, Discovery.findAllPages_try, try_catch.
    now rewrite Hbase.
Qed.

(** ** Discovery: the prioritised list *)

Section Prioritize.

Lemma occurrences_app (u : string) (l1 l2 : list string) :
  occurrences u (l1 ++ l2) = (occurrences u l1 + occurrences u l2)%nat.
Proof. unfold occurrences. now rewrite List.filter_app, length_app. Qed.

Lemma occurrences_absent (u : string) (l : list string) :
  u ∉ l -> occurrences u l = 0%nat.
Proof.
  unfold occurrences. induction l as [| x l IH]; intros H; [reflexivity |].
  simpl. destruct (String.eqb_spec u x) as [-> | _].
  - exfalso. apply H. constructor.
  - apply IH. intros Hin. apply H. now constructor.
Qed.

Lemma occurrences_NoDup (u : string) (l : list string) :
  NoDup l -> (occurrences u l <= 1)%nat.
Proof.
  induction 1 as [| x l Hx Hnd IH]; [unfold occurrences; simpl; lia |].
  unfold occurrences in *. simpl. destruct (String.eqb_spec u x) as [-> | _]; [| exact IH].
  simpl. fold (occurrences x l). rewrite occurrences_absent by exact Hx. lia.
Qed.

Lemma NoDup_take_of {A} (n : nat) (l : list A) : NoDup l -> NoDup (take n l).
Proof. intros H. eapply sublist_NoDup; [exact H | apply sublist_take]. Qed.

Lemma elem_of_take_of {A} (n : nat) (l : list A) (x : A) : x ∈ take n l -> x ∈ l.
Proof. intros H. eapply elem_of_sublist; [exact H | apply sublist_take]. Qed.

Variable pages : list string.

Let productPages := filter (fun url => Is_true (Discovery.is_product_page url)) pages.
Let categoryPages := filter (fun url => Is_true (Discovery.is_category_page url)) pages.
Let otherPages :=
  filter (fun url => Is_true (negb (JS.Array_includes productPages url) &&
                              negb (JS.Array_includes categoryPages url))) pages.

(** The cut at 30 never removes anything: the three cuts already add up to
    at most 30. *)
Lemma prioritize_buckets_eq :
  Discovery.prioritize pages
  = take 15 productPages ++ take 10 categoryPages ++ take 5 otherPages.
Proof.
  unfold Discovery.prioritize, JS.Array_slice0. cbv zeta.
  fold productPages. fold categoryPages. fold otherPages.
  apply take_ge. rewrite !length_app, !length_take. lia.
Qed.

Lemma productPages_spec (u : string) :
  u ∈ productPages <-> Discovery.is_product_page u = true /\ u ∈ pages.
Proof. unfold productPages. rewrite list_elem_of_filter, Is_true_true. reflexivity. Qed.

Lemma categoryPages_spec (u : string) :
  u ∈ categoryPages <-> Discovery.is_category_page u = true /\ u ∈ pages.
Proof. unfold categoryPages. rewrite list_elem_of_filter, Is_true_true. reflexivity. Qed.

Lemma otherPages_spec (u : string) :
  u ∈ otherPages <->
  (Discovery.is_product_page u = false /\ Discovery.is_category_page u = false) /\ u ∈ pages.
Proof.
  unfold otherPages. rewrite list_elem_of_filter, Is_true_true, andb_true_iff.
  unfold JS.Array_includes. rewrite !negb_true_iff, !bool_decide_eq_false.
  rewrite productPages_spec, categoryPages_spec.
  destruct (Discovery.is_product_page u), (Discovery.is_category_page u); intuition congruence.
Qed.

Lemma prioritize_subset (u : string) : u ∈ Discovery.prioritize pages -> u ∈ pages.
Proof.
  rewrite prioritize_buckets_eq, !elem_of_app.
  intros [H | [H | H]]; apply elem_of_take_of in H.
  - now apply productPages_spec in H.
  - now apply categoryPages_spec in H.
  - now apply otherPages_spec in H.
Qed.

Lemma prioritize_occurrences (u : string) :
  NoDup pages -> (occurrences u (Discovery.prioritize pages) <= 2)%nat.
Proof.
  intros Hnd. rewrite prioritize_buckets_eq, !occurrences_app.
  assert (occurrences u (take 15 productPages) <= 1)%nat
    by (apply occurrences_NoDup, NoDup_take_of, NoDup_filter, Hnd).
  assert (occurrences u (take 10 categoryPages) <= 1)%nat
    by (apply occurrences_NoDup, NoDup_take_of, NoDup_filter, Hnd).
  assert (occurrences u (take 5 otherPages) <= 1)%nat
    by (apply occurrences_NoDup, NoDup_take_of, NoDup_filter, Hnd).
  destruct (decide (u ∈ take 5 otherPages)) as [Hin | Hout].
  - apply elem_of_take_of, otherPages_spec in Hin as [[Hp Hc] _].
    rewrite (occurrences_absent u (take 15 productPages)).
    + lia.
    + intros H'. apply elem_of_take_of, productPages_spec in H'. destruct H'. congruence.
  - rewrite (occurrences_absent u (take 5 otherPages)) by exact Hout. lia.
Qed.

Lemma prioritize_NoDup :
  NoDup pages ->
  (forall u, u ∈ Discovery.prioritize pages ->
             ~ (Discovery.is_product_page u = true /\ Discovery.is_category_page u = true)) ->
  NoDup (Discovery.prioritize pages).
Proof.
  intros Hnd Hex.
  assert (Hex' : forall u, u ∈ take 15 productPages -> u ∈ take 10 categoryPages -> False).
  { intros u Hp Hc. apply (Hex u).
    - rewrite prioritize_buckets_eq, !elem_of_app. now left.
    - apply elem_of_take_of, productPages_spec in Hp.
      apply elem_of_take_of, categoryPages_spec in Hc. tauto. }
  rewrite prioritize_buckets_eq.
  apply NoDup_app. split; [apply NoDup_take_of, NoDup_filter, Hnd |]. split.
  - intros u Hp. rewrite elem_of_app. intros [Hc | Ho].
    + exact (Hex' u Hp Hc).
    + apply elem_of_take_of, productPages_spec in Hp.
      apply elem_of_take_of, otherPages_spec in Ho. destruct Hp, Ho as [[? ?] ?]. congruence.
  - apply NoDup_app. split; [apply NoDup_take_of, NoDup_filter, Hnd |]. split.
    + intros u Hc Ho.
      apply elem_of_take_of, categoryPages_spec in Hc.
      apply elem_of_take_of, otherPages_spec in Ho. destruct Hc, Ho as [[? ?] ?]. congruence.
    + apply NoDup_take_of, NoDup_filter, Hnd.
Qed.

End Prioritize.

(** X1.  Discovery does not leave the site: every URL [findAllPages] returns
    is the base URL, or the [href] of a link resolved against the base URL
    to the base's host, or a string that parses to a URL on that host. *)
Theorem discovery_stays_on_site (P : Platform) (baseUrl : string) (h h' : History)
    (pages : list string)
    (Hrun : Discovery.findAllPages P baseUrl h = (Normal pages, h')) :
  forall u, u ∈ pages -> u = baseUrl \/ internal P baseUrl u.
Proof.
  intros u Hu.
  destruct (findAllPages_cases P baseUrl h)
    as [[_ Heq] | [(_ & _ & Heq) | (all & k & Heq & (_ & _ & Hall) & _)]];
    rewrite Heq in Hrun; injection Hrun as <- _.
  - apply list_elem_of_singleton in Hu. now left.
  - apply list_elem_of_singleton in Hu. now left.
  - apply prioritize_subset in Hu. rewrite Forall_forall in Hall. now apply Hall.
Qed.

Lemma discovery_stays_on_site_witness :
  "https://example.com/blog" = "https://example.com" \/
  internal Sample.sitemap_site "https://example.com" "https://example.com/blog".
Proof.
  eapply (discovery_stays_on_site Sample.sitemap_site "https://example.com" []).
  - vm_compute. reflexivity.
  - set_solver.
Defined.

(** X2.  No URL is returned more than twice by [findAllPages], and none is
    returned twice unless it is at once a product page and a category page. *)
Theorem discovery_repeats_at_most_twice (P : Platform) (baseUrl : string)
    (h h' : History) (pages : list string)
    (Hrun : Discovery.findAllPages P baseUrl h = (Normal pages, h')) :
  (forall u, (occurrences u pages <= 2)%nat) /\
  ((forall u, u ∈ pages ->
              ~ (Discovery.is_product_page u = true /\
                 Discovery.is_category_page u = true)) ->
   NoDup pages).
Proof.
  destruct (findAllPages_cases P baseUrl h)
    as [[_ Heq] | [(_ & _ & Heq) | (all & k & Heq & (_ & Hnd & _) & _)]];
    rewrite Heq in Hrun; injection Hrun as <- _.
  - split; [| intros _; apply NoDup_singleton].
    intros u. unfold occurrences. simpl. destruct (String.eqb u baseUrl); simpl; lia.
  - split; [| intros _; apply NoDup_singleton].
    intros u. unfold occurrences. simpl. destruct (String.eqb u baseUrl); simpl; lia.
  - split; [intros u; now apply prioritize_occurrences | now apply prioritize_NoDup].
Qed.

Lemma discovery_repeats_at_most_twice_witness :
  occurrences "https://shop.example.com/product/1"
    ["https://shop.example.com/product/1"; "https://shop.example.com";
     "https://shop.example.com/product/1"] = 2%nat /\
  (occurrences "https://shop.example.com/product/1"
     ["https://shop.example.com/product/1"; "https://shop.example.com";
      "https://shop.example.com/product/1"] <= 2)%nat.
Proof.
  split; [reflexivity |].
  eapply (discovery_repeats_at_most_twice
            (Sample.shop []) "https://shop.example.com" []).
  vm_compute. reflexivity.
Defined.




(** ** Per-page analysis: the result and the calls *)

Lemma sleeps_app (h1 h2 : History) : sleeps (h1 ++ h2) = (sleeps h1 + sleeps h2)%nat.
Proof. unfold sleeps. now rewrite List.filter_app, length_app. Qed.

Lemma db_writes_app (h1 h2 : History) :
  List.filter is_db_write (h1 ++ h2)
  = List.filter is_db_write h1 ++ List.filter is_db_write h2.
Proof. apply List.filter_app. Qed.

(** Every way [analyzePageForProducts] can go: in each the page is scraped
    once and the model is called at most once, after the scrape. *)
Lemma analyzePageForProducts_trace (P : Platform) (pageUrl : string) (i n : nat)
    (h : History) :
  exists page h',
    MultiPage.analyzePageForProducts P pageUrl i n h = (Normal page, h') /\
    PageAnalysis.url page = pageUrl /\
    well_formed_page page /\
    ((h' = h ++ [EvScrape pageUrl] /\ PageAnalysis.status page = page_failed) \/
     (exists prompt, h' = h ++ [EvScrape pageUrl; EvGenerateObject prompt])).
Proof.
  unfold MultiPage.analyzePageForProducts. run_unfold.
  destruct (data_scrape P h pageUrl) as [scraped | e].
  - destruct (too_short (markdown scraped)).
    + do 2 eexists. split; [reflexivity |]. split; [reflexivity |]. split.
      * right. simpl. repeat split; [discriminate | eauto].
      * left. split; reflexivity.
    + match goal with
      | |- context [ai_generatePage P ?h1 ?p] => destruct (ai_generatePage P h1 p)
      end.
      * do 2 eexists. split; [reflexivity |]. split; [reflexivity |]. split.
        -- left. split; reflexivity.
        -- right. eexists. now rewrite <- app_assoc.
      * do 2 eexists. split; [reflexivity |]. split; [reflexivity |]. split.
        -- right. simpl. repeat split; [discriminate | eauto].
        -- right. eexists. now rewrite <- app_assoc.
  - do 2 eexists. split; [reflexivity |]. split; [reflexivity |]. split.
    + right. simpl. repeat split; [discriminate | eauto].
    + left. split; reflexivity.
Qed.

(** X5.  Whatever the platform answers, [analyzePageForProducts] returns a
    result for the page it was given that is either completed without an
    error message, or failed with count 0, confidence 0, no category, some
    evidence and an error message; it is never skipped.  On the way the page
    is scraped once and the model is called at most once, and a completed
    result always comes from a model call. *)
Theorem page_result_shape (P : Platform) (pageUrl : string) (i n : nat) (h : History) :
  exists page h',
    MultiPage.analyzePageForProducts P pageUrl i n h = (Normal page, h') /\
    PageAnalysis.url page = pageUrl /\
    well_formed_page page /\
    PageAnalysis.status page <> page_skipped /\
    scraped_urls h' = scraped_urls h ++ [pageUrl] /\
    (model_calls h <= model_calls h' <= model_calls h + 1)%nat /\
    (PageAnalysis.status page = page_completed ->
     model_calls h' = (model_calls h + 1)%nat).
Proof.
  destruct (analyzePageForProducts_trace P pageUrl i n h)
    as (page & h' & Hrun & Hurl & Hwf & Htrace).
  exists page, h'. split; [exact Hrun |]. split; [exact Hurl |]. split; [exact Hwf |].
  split.
  { destruct Hwf as [[-> _] | [-> _]]; discriminate. }
  destruct Htrace as [[-> Hfailed] | [prompt ->]].
  - rewrite scraped_urls_app, model_calls_app.
    change (model_calls [EvScrape pageUrl]) with 0%nat. simpl.
    repeat split; try lia. rewrite Hfailed. discriminate.
  - rewrite scraped_urls_app, model_calls_app.
    change (model_calls [EvScrape pageUrl; EvGenerateObject prompt]) with 1%nat. simpl.
    repeat split; lia.
Qed.

Lemma page_result_shape_witness :
  exists page h',
    MultiPage.analyzePageForProducts
      (Sample.two_pages (Sample.counted 4 80) (Sample.counted 6 60))
      "https://example.com" 0 1 [] = (Normal page, h') /\
    PageAnalysis.status page = page_completed /\ model_calls h' = 1%nat.
Proof.
  destruct (page_result_shape
              (Sample.two_pages (Sample.counted 4 80) (Sample.counted 6 60))
              "https://example.com" 0 1 [])
    as (page & h' & Hrun & _ & _ & _ & _ & _ & Hcalls).
  exists page, h'. split; [exact Hrun |].
  assert (PageAnalysis.status page = page_completed) as Hc.
  { vm_compute in Hrun. injection Hrun as <- _. reflexivity. }
  split; [exact Hc | exact (Hcalls Hc)].
Defined.

(** ** The excerpt that goes into a prompt *)

Lemma slice0_length (n : nat) (s : string) :
  String.length (JS.slice0 n s) = Nat.min n (String.length s).
Proof.
  unfold JS.slice0. revert s. induction n as [| n IH]; intros s.
  - now destruct s.
  - destruct s as [| c s]; [reflexivity |]. simpl. now rewrite IH.
Qed.

Lemma slice0_prefix (n : nat) (s : string) : String.prefix (JS.slice0 n s) s = true.
Proof.
  unfold JS.slice0. revert s. induction n as [| n IH]; intros s.
  - now destruct s.
  - destruct s as [| c s]; [reflexivity |]. simpl.
    destruct (ascii_dec c c) as [_ | Hne]; [apply IH | now destruct Hne].
Qed.

(** X6.  When the scrape answers with at least 100 characters of text, the
    model is called once with a prompt built from the page URL, its title
    ('Unknown' when there is none) and an excerpt that is the first 20000
    characters of the text, the whole text when it is shorter. *)
Theorem page_prompt_excerpt (P : Platform) (pageUrl : string) (i n : nat)
    (h : History) (scraped : ScrapeResult) (text : string)
    (Hscrape : data_scrape P h pageUrl = Normal scraped)
    (Htext : markdown scraped = Some text)
    (Hlong : (100 <= String.length text)%nat) :
  exists excerpt,
    snd (MultiPage.analyzePageForProducts P pageUrl i n h)
      = h ++ [EvScrape pageUrl;
              EvGenerateObject (PagePrompt pageUrl (title_or_unknown scraped) excerpt)] /\
    String.prefix excerpt text = true /\
    Z.of_nat (String.length excerpt) = Z.min (Z.of_nat (String.length text)) 20000 /\
    ((String.length text <= Z.to_nat 20000)%nat -> excerpt = text).
Proof.
  exists (JS.slice0 page_excerpt_length text). split; [| split; [| split]].
  - unfold MultiPage.analyzePageForProducts. run_unfold. rewrite Hscrape, Htext.
    assert (too_short (Some text) = false) as ->.
    { simpl. apply orb_false_iff. split.
      - destruct text; [simpl in Hlong; lia | reflexivity].
      - now apply Nat.ltb_ge. }
    simpl default.
    destruct (ai_generatePage P _ _); simpl; now rewrite <- app_assoc.
  - apply slice0_prefix.
  - rewrite slice0_length. unfold page_excerpt_length. lia.
  - intros Hshort.
    pose proof (slice0_prefix page_excerpt_length text) as Hp.
    pose proof (slice0_length page_excerpt_length text) as Hl.
    unfold page_excerpt_length in *.
    rewrite Nat.min_r in Hl by exact Hshort.
    apply String.prefix_correct in Hp. rewrite Hl in Hp.
    generalize (JS.slice0 (Z.to_nat 20000) text) Hp. clear.
    induction text as [| c text IH]; intros [| d s] Hs; simpl in *; try congruence.
    injection Hs as <- Hs. f_equal. now apply IH.
Qed.

Lemma page_prompt_excerpt_witness :
  exists excerpt,
    snd (MultiPage.analyzePageForProducts
           (Sample.two_pages (Sample.counted 4 80) (Sample.counted 6 60))
           "https://example.com" 0 1 [])
      = [EvScrape "https://example.com";
         EvGenerateObject (PagePrompt "https://example.com" "Home" excerpt)] /\
    String.prefix excerpt Sample.long_text = true.
Proof.
  destruct (page_prompt_excerpt
              (Sample.two_pages (Sample.counted 4 80) (Sample.counted 6 60))
              "https://example.com" 0 1 []
              (Sample.page "Home" ["/about-us"]) Sample.long_text)
    as (excerpt & Hrun & Hprefix & _).
  - reflexivity.
  - reflexivity.
  - vm_compute. repeat constructor.
  - exists excerpt. split; [exact Hrun | exact Hprefix].
Defined.

(** ** The page loop: pacing and results *)

(** The loop, with the shape of its results and what it adds to the
    history. *)
Lemma analyze_pages_trace (P : Platform) (pages : list string) :
  forall (i n : nat) (c : MultiPage.Crawl) (h : History),
  exists results h',
    MultiPage.analyze_pages P pages i n c h
      = (Normal (fold_left MultiPage.record_page results c), h') /\
    map PageAnalysis.url results = pages /\
    Forall well_formed_page results /\
    sleeps h' = (sleeps h + length pages)%nat /\
    (model_calls h + length (completed results) <= model_calls h'
       <= model_calls h + length pages)%nat /\
    List.filter is_db_write h' = List.filter is_db_write h /\
    downloads h' = downloads h.
Proof.
  induction pages as [| pageUrl rest IH]; intros i n c h; simpl.
  - exists [], h. simpl. repeat split; try lia. constructor.
  - destruct (analyzePageForProducts_trace P pageUrl i n h)
      as (page & h1 & Hrun & Hurl & Hwf & Htrace).
    unfold bind at 1. rewrite Hrun. unfold bind at 1, call at 1.
    destruct (IH (S i) n (MultiPage.record_page c page) (h1 ++ [EvSleep 1000]))
      as (results & h' & Hrest & Hurls & Hall & Hsleeps & Hcalls & Hdb & Hdl).
    exists (page :: results), h'. split; [exact Hrest |].
    split; [simpl; now rewrite Hurl, Hurls |].
    split; [now constructor |].
    rewrite Hsleeps, Hdb, Hdl.
    rewrite sleeps_app, model_calls_app, db_writes_app, downloads_app in *.
    change (sleeps [EvSleep 1000]) with 1%nat.
    change (model_calls [EvSleep 1000]) with 0%nat in Hcalls.
    change (List.filter is_db_write [EvSleep 1000]) with (@nil Event).
    change (downloads [EvSleep 1000]) with (@nil Event).
    rewrite !app_nil_r.
    destruct Htrace as [[-> Hfailed] | [prompt ->]];
      rewrite ?sleeps_app, ?model_calls_app, ?db_writes_app, ?downloads_app in *.
    + change (sleeps [EvScrape pageUrl]) with 0%nat.
      change (model_calls [EvScrape pageUrl]) with 0%nat in Hcalls.
      change (List.filter is_db_write [EvScrape pageUrl]) with (@nil Event).
      change (downloads [EvScrape pageUrl]) with (@nil Event).
      rewrite !app_nil_r.
      assert (completed (page :: results) = completed results) as ->.
      { unfold completed. simpl. now rewrite Hfailed. }
      repeat split; lia.
    + change (sleeps [EvScrape pageUrl; EvGenerateObject prompt]) with 0%nat.
      change (model_calls [EvScrape pageUrl; EvGenerateObject prompt]) with 1%nat in Hcalls.
      change (List.filter is_db_write [EvScrape pageUrl; EvGenerateObject prompt])
        with (@nil Event).
      change (downloads [EvScrape pageUrl; EvGenerateObject prompt]) with (@nil Event).
      rewrite !app_nil_r.
      assert (length (completed (page :: results)) <= S (length (completed results)))%nat.
      { unfold completed. simpl. destruct (bool_decide _); simpl; lia. }
      repeat split; lia.
Qed.

(** X7.  The page loop pauses once after every page, failed pages included;
    it calls the model at most once per page and at least once per completed
    result, and it neither writes to the database nor downloads anything. *)
Theorem page_loop_pacing (P : Platform) (pages : list string) (i n : nat)
    (c : MultiPage.Crawl) (h : History) :
  exists c' h',
    MultiPage.analyze_pages P pages i n c h = (Normal c', h') /\
    sleeps h' = (sleeps h + length pages)%nat /\
    (model_calls h' <= model_calls h + length pages)%nat /\
    (model_calls h + (length (completed (MultiPage.pageResults c'))
                      - length (completed (MultiPage.pageResults c)))
       <= model_calls h')%nat /\
    List.filter is_db_write h' = List.filter is_db_write h /\
    downloads h' = downloads h.
Proof.
  destruct (analyze_pages_trace P pages i n c h)
    as (results & h' & Hrun & _ & _ & Hsleeps & Hcalls & Hdb & Hdl).
  do 2 eexists. split; [exact Hrun |].
  rewrite pageResults_recorded, completed_app, length_app.
  repeat split; try assumption; lia.
Qed.

Lemma page_loop_pacing_witness :
  exists c' h',
    MultiPage.analyze_pages
      (Sample.platform [("https://example.com/b", Sample.page "B" [])]
                       [Sample.counted 4 80])
      ["https://example.com/a"; "https://example.com/b"] 0 2
      MultiPage.crawl_start [] = (Normal c', h') /\
    sleeps h' = 2%nat.
Proof.
  destruct (page_loop_pacing
              (Sample.platform [("https://example.com/b", Sample.page "B" [])]
                               [Sample.counted 4 80])
              ["https://example.com/a"; "https://example.com/b"] 0 2
              MultiPage.crawl_start [])
    as (c' & h' & Hrun & Hsleeps & _).
  exists c', h'. split; [exact Hrun | exact Hsleeps].
Defined.

(** ** A whole multi-page run *)

(** What a multi-page run has done when its [try] block ends normally. *)
Lemma multi_page_try_trace (P : Platform) (url : string) (h h' : History) (o : Outcome) :
  MultiPage.analyzeWebsite_try P url h = (Normal o, h') ->
  exists validatedUrl discovered results hd hl,
    validateUrl P (JS.trim url) = Normal validatedUrl /\
    db_create P h validatedUrl "analyzing" = Normal tt /\
    Discovery.findAllPages P validatedUrl (h ++ [EvDbCreate validatedUrl "analyzing"])
      = (Normal discovered, hd) /\
    MultiPage.analyze_pages P discovered 0 (length discovered) MultiPage.crawl_start hd
      = (Normal (fold_left MultiPage.record_page results MultiPage.crawl_start), hl) /\
    map PageAnalysis.url results = discovered /\
    Forall well_formed_page results /\
    o = SetResult (aggregate P discovered results) /\
    db_update P hl (AnalysisResult.totalProductCount (aggregate P discovered results))
              "completed" = Normal tt /\
    h' = hl ++ [EvDbUpdate (AnalysisResult.totalProductCount (aggregate P discovered results))
                           "completed"; EvDbList].
Proof.
  unfold MultiPage.analyzeWebsite_try, lift.
  unfold bind at 1.
  destruct (validateUrl P (JS.trim url)) as [validatedUrl | e]; [| discriminate].
  unfold bind at 1, call at 1.
  destruct (db_create P h validatedUrl "analyzing") as [[] | e] eqn:Hcreate; [| discriminate].
  unfold bind at 1.
  destruct (Discovery.findAllPages P validatedUrl
              (h ++ [EvDbCreate validatedUrl "analyzing"]))
    as [[discovered | e] hd] eqn:Hfind; [| discriminate].
  unfold bind at 1.
  destruct (analyze_pages_trace P discovered 0 (length discovered)
              MultiPage.crawl_start hd)
    as (results & hl & Hloop & Hurls & Hwf & _).
  rewrite Hloop.
  unfold bind at 1, call at 1.
  destruct (db_update P hl _ "completed") as [[] | e] eqn:Hupdate; [| discriminate].
  unfold bind, loadHistory, try_catch, call, ret.
  intros Hend.
  assert (o = SetResult (aggregate P discovered results) /\
          h' = (hl ++ [EvDbUpdate (MultiPage.totalProducts
                          (fold_left MultiPage.record_page results MultiPage.crawl_start))
                        "completed"]) ++ [EvDbList]) as [-> ->].
  { destruct (db_list P _); injection Hend as <- <-; split; reflexivity. }
  exists validatedUrl, discovered, results, hd, hl.
  assert (AnalysisResult.totalProductCount (aggregate P discovered results)
          = MultiPage.totalProducts
              (fold_left MultiPage.record_page results MultiPage.crawl_start)) as ->.
  { unfold aggregate. apply finalResult_fields. }
  rewrite <- app_assoc. repeat split; assumption.
Qed.

Lemma validateUrl_Normal (P : Platform) (url validatedUrl : string) :
  validateUrl P url = Normal validatedUrl ->
  validatedUrl = with_scheme url /\ is_Some (URL_new P validatedUrl).
Proof.
  unfold validateUrl, with_scheme.
  destruct (JS.startsWith url "http://"), (JS.startsWith url "https://"); simpl;
    match goal with
    | |- context [URL_new P ?u] => destruct (URL_new P u) eqn:E
    end; intros [= <-]; rewrite ?E; eauto.
Qed.

Lemma multi_page_shows_try (P : Platform) (url : string) (h : History)
    (r : AnalysisResult.t) :
  shows (MultiPage.analyzeWebsite P url h) r ->
  MultiPage.analyzeWebsite_try P url h
  = (Normal (SetResult r), snd (MultiPage.analyzeWebsite P url h)).
Proof.
  unfold shows, MultiPage.analyzeWebsite.
  destruct (negb _); [discriminate |].
  unfold try_catch.
  destruct (MultiPage.analyzeWebsite_try P url h) as [[o | e] h']; simpl; [| discriminate].
  now intros [= ->].
Qed.

Section WholeRun.

Local Open Scope Q_scope.

Lemma sum_over_well_formed (results : list PageAnalysis.t) :
  Forall well_formed_page results ->
  sum_over PageAnalysis.productCount (completed results)
  == sum_over PageAnalysis.productCount results.
Proof.
  induction 1 as [| p results Hp Hall IH]; [reflexivity |].
  unfold completed in *. simpl.
  destruct Hp as [[Hc _] | (Hf & Hzero & _)].
  - rewrite Hc. simpl. rewrite IH. reflexivity.
  - rewrite Hf, Hzero. simpl. rewrite IH. lra.
Qed.

Lemma completed_length_le (results : list PageAnalysis.t) :
  (length (completed results) <= length results)%nat.
Proof. apply List.filter_length_le. Qed.

(** X8.  In every result the multi-page flow shows, each page result is
    well formed (completed without error message, or failed with count 0
    and a message), so the total is also the sum of the counts of all page
    results; the details repeat the total; and between 1 and 30 pages were
    analysed, [pagesAnalyzed] counting the completed ones among them. *)
Theorem multi_page_result_invariants (P : Platform) (url : string) (h : History)
    (r : AnalysisResult.t)
    (Hshown : shows (MultiPage.analyzeWebsite P url h) r) :
  Forall well_formed_page (AnalysisResult.pageResults r) /\
  AnalysisResult.totalProductCount r
    == sum_over PageAnalysis.productCount (AnalysisResult.pageResults r) /\
  Details.totalProducts (AnalysisResult.details r) = AnalysisResult.totalProductCount r /\
  (1 <= length (AnalysisResult.pageResults r) <= 30)%nat /\
  (AnalysisResult.pagesAnalyzed r <= length (AnalysisResult.pageResults r))%nat /\
  hd_error (AnalysisResult.sitemap r) <> None.
Proof.
  pose proof (multi_page_shows_try P url h r Hshown) as Htry.
  destruct (multi_page_try_trace P url h _ _ Htry)
    as (v & d & rs & hd & hl & _ & _ & Hfind & _ & Hurls & Hwf & [= ->] & _).
  destruct (findAllPages_returns P v (h ++ [EvDbCreate v "analyzing"]))
    as (d' & hd' & Hfind' & Hlen & Hin & _).
  rewrite Hfind in Hfind'. injection Hfind' as <- <-.
  rewrite aggregate_pageResults. unfold aggregate.
  destruct (finalResult_fields P d (fold_left MultiPage.record_page rs MultiPage.crawl_start))
    as (-> & -> & _ & -> & _).
  rewrite pageResults_recorded. simpl.
  assert (length rs = length d) as Hl by (rewrite <- Hurls; now rewrite length_map).
  split; [exact Hwf |]. split.
  { rewrite totalProducts_recorded. simpl. rewrite sum_over_well_formed by exact Hwf. lra. }
  split.
  { unfold MultiPage.finalResult. now destruct (MultiPage.breakdowns _). }
  split.
  { rewrite Hl. split; [| exact Hlen]. destruct d; [inversion Hin | simpl; lia]. }
  split; [apply completed_length_le |].
  destruct d; [inversion Hin | discriminate].
Qed.

Lemma multi_page_result_invariants_witness :
  exists r,
    shows (MultiPage.analyzeWebsite
             (Sample.platform [("https://example.com", Sample.page "Home" ["/missing"])]
                              [Sample.counted 4 80])
             "example.com" []) r /\
    map PageAnalysis.status (AnalysisResult.pageResults r) = [page_completed; page_failed] /\
    AnalysisResult.totalProductCount r
      == sum_over PageAnalysis.productCount (AnalysisResult.pageResults r).
Proof.
  eexists. split; [vm_compute; reflexivity |]. split; [reflexivity |].
  match goal with
  | |- AnalysisResult.totalProductCount ?r == _ =>
      apply (multi_page_result_invariants
               (Sample.platform [("https://example.com", Sample.page "Home" ["/missing"])]
                                [Sample.counted 4 80])
               "example.com" [] r)
  end.
  vm_compute. reflexivity.
Defined.

End WholeRun.

Lemma db_writes_of_fetches (urls : list string) :
  List.filter is_db_write (map EvFetch urls) = [].
Proof. induction urls as [| u urls IH]; [reflexivity | exact IH]. Qed.

Lemma sleeps_of_fetches (urls : list string) : sleeps (map EvFetch urls) = 0%nat.
Proof. unfold sleeps. induction urls as [| u urls IH]; [reflexivity | exact IH]. Qed.

Lemma model_calls_of_fetches (urls : list string) : model_calls (map EvFetch urls) = 0%nat.
Proof. unfold model_calls. induction urls as [| u urls IH]; [reflexivity | exact IH]. Qed.

(** Discovery writes nothing to the database, does not pause and does not
    call the model. *)
Lemma findAllPages_quiet (P : Platform) (baseUrl : string) (h : History) :
  let h' := snd (Discovery.findAllPages P baseUrl h) in
  List.filter is_db_write h' = List.filter is_db_write h /\
  sleeps h' = sleeps h /\ model_calls h' = model_calls h.
Proof.
  destruct (findAllPages_cases P baseUrl h)
    as [[_ Heq] | [(_ & _ & Heq) | (all & k & Heq & _)]]; rewrite Heq; simpl.
  - repeat split.
  - rewrite db_writes_app, sleeps_app, model_calls_app. simpl.
    change (sleeps [EvScrape baseUrl]) with 0%nat.
    change (model_calls [EvScrape baseUrl]) with 0%nat.
    rewrite app_nil_r. repeat split; lia.
  - change (h ++ EvScrape baseUrl :: ?l) with (h ++ [EvScrape baseUrl] ++ l).
    rewrite !db_writes_app, !sleeps_app, !model_calls_app.
    rewrite db_writes_of_fetches, sleeps_of_fetches, model_calls_of_fetches.
    change (sleeps [EvScrape baseUrl]) with 0%nat.
    change (model_calls [EvScrape baseUrl]) with 0%nat.
    simpl. rewrite app_nil_r. repeat split; lia.
Qed.

(** X9.  A multi-page run that shows a result has written to the database
    exactly twice: a record for the validated URL with status analyzing
    before anything else, and an update with the total count and status
    completed (whatever the status of the result) after the last page; it
    has paused once per discovered page, called the model at most once per
    page, and ended by listing the history. *)
Theorem multi_page_run_effects (P : Platform) (url : string) (h : History)
    (r : AnalysisResult.t)
    (Hshown : shows (MultiPage.analyzeWebsite P url h) r) :
  let h' := snd (MultiPage.analyzeWebsite P url h) in
  List.filter is_db_write h'
    = List.filter is_db_write h ++
      [EvDbCreate (with_scheme (JS.trim url)) "analyzing";
       EvDbUpdate (AnalysisResult.totalProductCount r) "completed"] /\
  sleeps h' = (sleeps h + length (AnalysisResult.sitemap r))%nat /\
  (model_calls h' <= model_calls h + length (AnalysisResult.sitemap r))%nat /\
  last h' = Some EvDbList /\
  downloads h' = downloads h.
Proof.
  intros h'. subst h'.
  pose proof (multi_page_shows_try P url h r Hshown) as Htry.
  destruct (multi_page_try_trace P url h _ _ Htry)
    as (v & d & rs & hd & hl & Hv & _ & Hfind & Hloop & Hurls & _ & [= ->] & _ & ->).
  apply validateUrl_Normal in Hv as [-> _].
  set (v := with_scheme (JS.trim url)) in *.
  pose proof (findAllPages_quiet P v (h ++ [EvDbCreate v "analyzing"])) as Hq.
  rewrite Hfind in Hq. simpl in Hq. destruct Hq as (Hdb & Hsl & Hmc).
  destruct (findAllPages_cases P v (h ++ [EvDbCreate v "analyzing"]))
    as [[_ Heq] | [(_ & _ & Heq) | (all & k & Heq & _)]];
    rewrite Hfind in Heq; injection Heq as Hd Hhd.
  all: destruct (analyze_pages_trace P d 0 (length d) MultiPage.crawl_start hd)
      as (rs' & hl' & Hloop' & _ & _ & Hsleeps & Hcalls & Hdbl & Hdl);
    rewrite Hloop in Hloop'; injection Hloop' as _ <-.
  all: assert (AnalysisResult.sitemap (aggregate P d rs) = d) as ->
      by (unfold aggregate; apply finalResult_fields).
  all: rewrite db_writes_app, sleeps_app, model_calls_app, downloads_app, Hdbl, Hdb,
         Hsleeps, Hsl, Hdl.
  all: rewrite db_writes_app, sleeps_app, model_calls_app in *.
  all: assert (downloads hd = downloads h) as ->
      by (rewrite Hhd; rewrite ?downloads_app; simpl;
          rewrite ?app_nil_r; try reflexivity;
          change (h ++ [EvDbCreate v "analyzing"] ++ ?l) with (h ++ ([EvDbCreate v "analyzing"] ++ l));
          rewrite ?downloads_app; simpl;
          unfold downloads; clear; induction (take k (Discovery.sitemapUrls v));
          simpl; rewrite ?app_nil_r; auto).
  all: simpl; rewrite <- ?app_assoc; simpl.
  all: change (sleeps [EvDbCreate v "analyzing"]) with 0%nat in *.
  all: change (model_calls [EvDbCreate v "analyzing"]) with 0%nat in *.
  all: change (sleeps [EvDbUpdate ?a ?b; EvDbList]) with 0%nat.
  all: change (model_calls [EvDbUpdate ?a ?b; EvDbList]) with 0%nat.
  all: rewrite app_nil_r.
  all: repeat split; try lia.
  all: rewrite last_app; reflexivity.
Qed.

Lemma multi_page_run_effects_witness :
  List.filter is_db_write
    (snd (MultiPage.analyzeWebsite
            (Sample.two_pages (Sample.counted 4 80) (Sample.counted 6 60))
            " example.com " []))
  = [EvDbCreate "https://example.com" "analyzing"; EvDbUpdate 10 "completed"].
Proof.
  eassert (Hshown : shows (MultiPage.analyzeWebsite
                             (Sample.two_pages (Sample.counted 4 80) (Sample.counted 6 60))
                             " example.com " []) _)
    by (vm_compute; reflexivity).
  destruct (multi_page_run_effects _ _ _ _ Hshown) as (Hdb & _).
  rewrite Hdb. reflexivity.
Defined.

(** ** A whole single-page run *)

(** What a single-page run has done when its [try] block ends normally. *)
Lemma single_page_try_trace (P : Platform) (url : string) (h h' : History) (o : Outcome) :
  SinglePage.analyzeWebsite_try P url h = (Normal o, h') ->
  exists validatedUrl screenshotUrl scraped analysis visualAnalysis,
    validateUrl P (JS.trim url) = Normal validatedUrl /\
    db_create P h validatedUrl "analyzing" = Normal tt /\
    too_short (markdown scraped) = false /\
    let title := title_or_unknown scraped in
    let excerpt := JS.slice0 site_excerpt_length (default "" (markdown scraped)) in
    let result := SinglePage.finalResult P validatedUrl title analysis visualAnalysis in
    let calls := [EvDbCreate validatedUrl "analyzing"; EvScreenshot validatedUrl;
                  EvScrape validatedUrl;
                  EvGenerateObject (TextPrompt validatedUrl title excerpt);
                  EvGenerateObject (VisualPrompt screenshotUrl)] in
    o = SetResult result /\
    db_update P (h ++ calls) (AnalysisResult.totalProductCount result) "completed"
      = Normal tt /\
    h' = h ++ calls ++
         [EvDbUpdate (AnalysisResult.totalProductCount result) "completed"; EvDbList].
Proof.
  unfold SinglePage.analyzeWebsite_try, lift.
  unfold bind at 1.
  destruct (validateUrl P (JS.trim url)) as [validatedUrl | e]; [| discriminate].
  unfold bind at 1, call at 1.
  destruct (db_create P h validatedUrl "analyzing") as [[] | e] eqn:Hcreate; [| discriminate].
  unfold bind at 1, call at 1.
  destruct (data_screenshot P _ validatedUrl) as [screenshotUrl | e]; [| discriminate].
  unfold bind at 1, call at 1.
  destruct (data_scrape P _ validatedUrl) as [scraped | e]; [| discriminate].
  destruct (too_short (markdown scraped)) eqn:Hshort; [discriminate |].
  unfold bind at 1, call at 1.
  destruct (ai_generateText P _ _) as [analysis | e]; [| discriminate].
  unfold bind at 1, call at 1.
  destruct (ai_generateVisual P _ _) as [visualAnalysis | e]; [| discriminate].
  unfold bind at 1, call at 1.
  rewrite <- !app_assoc. simpl app.
  destruct (db_update P _ _ "completed") as [[] | e] eqn:Hupdate; [| discriminate].
  unfold bind, loadHistory, try_catch, call, ret.
  intros Hend.
  exists validatedUrl, screenshotUrl, scraped, analysis, visualAnalysis.
  split; [reflexivity |]. split; [exact Hcreate |]. split; [exact Hshort |].
  cbv zeta. rewrite <- !app_assoc in Hend. simpl app in Hend.
  split; [| split; [exact Hupdate |]].
  - destruct (db_list P _); now injection Hend as <- _.
  - destruct (db_list P _); now injection Hend as _ <-.
Qed.

Lemma single_page_shows_try (P : Platform) (url : string) (h : History)
    (r : AnalysisResult.t) :
  shows (SinglePage.analyzeWebsite P url h) r ->
  SinglePage.analyzeWebsite_try P url h
  = (Normal (SetResult r), snd (SinglePage.analyzeWebsite P url h)).
Proof.
  unfold shows, SinglePage.analyzeWebsite.
  destruct (negb _); [discriminate |].
  unfold try_catch.
  destruct (SinglePage.analyzeWebsite_try P url h) as [[o | e] h']; simpl.
  - now intros [= ->].
  - unfold SinglePage.analyzeWebsite_catch, bind, try_catch, call, ret.
    destruct (db_create P h' url "failed"); discriminate.
Qed.

(** X10.  A single-page run that shows a result has made exactly these
    calls, in this order: the analyzing record, the screenshot, the scrape,
    the text prompt, the screenshot prompt, the completed update and the
    history listing.  Its result holds one completed page result for the
    validated URL, whose count is the total and whose confidence is the
    result's; the sitemap and the per-page map hold that URL alone. *)
Theorem single_page_run (P : Platform) (url : string) (h : History)
    (r : AnalysisResult.t)
    (Hshown : shows (SinglePage.analyzeWebsite P url h) r) :
  let validatedUrl := with_scheme (JS.trim url) in
  (exists page,
     AnalysisResult.pageResults r = [page] /\
     PageAnalysis.url page = validatedUrl /\
     PageAnalysis.status page = page_completed /\
     PageAnalysis.errorMessage page = None /\
     PageAnalysis.productCount page = AnalysisResult.totalProductCount r /\
     PageAnalysis.confidence page = Details.confidence (AnalysisResult.details r)) /\
  AnalysisResult.sitemap r = [validatedUrl] /\
  AnalysisResult.pagesAnalyzed r = 1%nat /\
  Details.pageBreakdown (AnalysisResult.details r)
    = {[ validatedUrl := AnalysisResult.totalProductCount r ]} /\
  Details.totalProducts (AnalysisResult.details r) = AnalysisResult.totalProductCount r /\
  (exists title excerpt screenshotUrl,
     snd (SinglePage.analyzeWebsite P url h)
     = h ++ [EvDbCreate validatedUrl "analyzing"; EvScreenshot validatedUrl;
             EvScrape validatedUrl;
             EvGenerateObject (TextPrompt validatedUrl title excerpt);
             EvGenerateObject (VisualPrompt screenshotUrl);
             EvDbUpdate (AnalysisResult.totalProductCount r) "completed"; EvDbList]).
Proof.
  intros validatedUrl. subst validatedUrl.
  pose proof (single_page_shows_try P url h r Hshown) as Htry.
  destruct (single_page_try_trace P url h _ _ Htry)
    as (v & shot & scraped & a & vis & Hv & _ & _ & Hr & _ & Hh).
  cbv zeta in Hr, Hh. injection Hr as ->. rewrite Hh.
  apply validateUrl_Normal in Hv as [-> _].
  split; [eexists; repeat split |].
  repeat split. eauto.
Qed.

Lemma single_page_run_witness :
  exists r,
    shows (SinglePage.analyzeWebsite
             (Sample.one_page (Sample.text_answer 5 3 80 (Some 20))
                              (Sample.visual_answer 5 60))
             "example.com" []) r /\
    AnalysisResult.sitemap r = ["https://example.com"] /\
    AnalysisResult.pagesAnalyzed r = 1%nat.
Proof.
  eassert (Hshown : shows (SinglePage.analyzeWebsite
                             (Sample.one_page (Sample.text_answer 5 3 80 (Some 20))
                                              (Sample.visual_answer 5 60))
                             "example.com" []) _)
    by (vm_compute; reflexivity).
  destruct (single_page_run _ _ _ _ Hshown) as (_ & Hsitemap & Hn & _).
  eexists. split; [exact Hshown |]. split; [exact Hsitemap | exact Hn].
Defined.

(** ** How a run ends *)

Lemma shown_message_not_empty (e : Error) : shown_message e <> "".
Proof.
  unfold shown_message, JS.or_string. destruct (message e); simpl; discriminate.
Qed.

Lemma multi_page_try_result (P : Platform) (url : string) (h h' : History) (o : Outcome) :
  MultiPage.analyzeWebsite_try P url h = (Normal o, h') -> exists r, o = SetResult r.
Proof.
  intros H. destruct (multi_page_try_trace P url h h' o H)
    as (v & d & rs & hd & hl & _ & _ & _ & _ & _ & _ & -> & _). eauto.
Qed.

Lemma single_page_try_result (P : Platform) (url : string) (h h' : History) (o : Outcome) :
  SinglePage.analyzeWebsite_try P url h = (Normal o, h') -> exists r, o = SetResult r.
Proof.
  intros H. destruct (single_page_try_trace P url h h' o H)
    as (v & shot & scraped & a & vis & _ & _ & _ & Hr & _). cbv zeta in Hr. eauto.
Qed.

(** X11.  Neither [analyzeWebsite] lets an error escape: whatever the
    platform does, a run ends with a result on the screen or with an error
    message, and the message is never empty (an error without message is
    shown as 'Analysis failed. Please try again.'). *)
Theorem runs_end_with_result_or_message (P : Platform) (url : string) (h : History) :
  (exists o h', MultiPage.analyzeWebsite P url h = (Normal o, h') /\
                match o with SetError msg => msg <> "" | SetResult _ => True end) /\
  (exists o h', SinglePage.analyzeWebsite P url h = (Normal o, h') /\
                match o with SetError msg => msg <> "" | SetResult _ => True end).
Proof.
  split.
  - unfold MultiPage.analyzeWebsite.
    destruct (negb _); [do 2 eexists; split; [reflexivity | discriminate] |].
    unfold try_catch.
    destruct (MultiPage.analyzeWebsite_try P url h) as [[o | e] h'] eqn:Htry.
    + destruct (multi_page_try_result P url h h' o Htry) as [r ->].
      do 2 eexists. split; [reflexivity | exact I].
    + do 2 eexists. split; [reflexivity | apply shown_message_not_empty].
  - unfold SinglePage.analyzeWebsite.
    destruct (negb _); [do 2 eexists; split; [reflexivity | discriminate] |].
    unfold try_catch.
    destruct (SinglePage.analyzeWebsite_try P url h) as [[o | e] h'] eqn:Htry.
    + destruct (single_page_try_result P url h h' o Htry) as [r ->].
      do 2 eexists. split; [reflexivity | exact I].
    + unfold SinglePage.analyzeWebsite_catch, bind, try_catch, call, ret.
      destruct (db_create P h' url "failed");
        (do 2 eexists; split; [reflexivity | apply shown_message_not_empty]).
Qed.

Lemma trim_blank_validate (url : string) :
  JS.truthy_string (JS.trim url) = false -> JS.trim url = "".
Proof. destruct (JS.trim url); [reflexivity | discriminate]. Qed.

(** X12.  Input that is empty or only white space is refused with 'Please
    enter a website URL' and nothing is called.  Input that does not parse
    as a URL, even with [https://] in front, is refused with 'Please enter a
    valid website URL': the multi-page flow then calls nothing, the
    single-page flow still tries to save a failed record under the input as
    it was typed. *)
Theorem refused_input (P : Platform) (url : string) (h : History) :
  (JS.trim url = "" ->
   MultiPage.analyzeWebsite P url h = (Normal (SetError "Please enter a website URL"), h) /\
   SinglePage.analyzeWebsite P url h = (Normal (SetError "Please enter a website URL"), h)) /\
  (JS.trim url <> "" -> URL_new P (with_scheme (JS.trim url)) = None ->
   MultiPage.analyzeWebsite P url h
     = (Normal (SetError "Please enter a valid website URL"), h) /\
   SinglePage.analyzeWebsite P url h
     = (Normal (SetError "Please enter a valid website URL"), h ++ [EvDbCreate url "failed"])).
Proof.
  split.
  - intros Hblank. unfold MultiPage.analyzeWebsite, SinglePage.analyzeWebsite.
    rewrite Hblank. split; reflexivity.
  - intros Hsome Hbad.
    assert (JS.truthy_string (JS.trim url) = true) as Ht
      by (destruct (JS.trim url); [now destruct Hsome | reflexivity]).
    assert (validateUrl P (JS.trim url)
            = Throw {| message := "Please enter a valid website URL" |}) as Hv.
    { revert Hbad. unfold validateUrl, with_scheme.
      destruct (JS.startsWith (JS.trim url) "http://"),
               (JS.startsWith (JS.trim url) "https://"); simpl; now intros ->. }
    split.
    + unfold MultiPage.analyzeWebsite. rewrite Ht. simpl negb. cbv iota.
      unfold try_catch, MultiPage.analyzeWebsite_try.
      unfold bind at 1, lift at 1. now rewrite Hv.
    + unfold SinglePage.analyzeWebsite. rewrite Ht. simpl negb. cbv iota.
      unfold try_catch at 1, SinglePage.analyzeWebsite_try.
      unfold bind at 1, lift at 1. rewrite Hv.
      unfold SinglePage.analyzeWebsite_catch, bind, try_catch, call, ret. simpl.
      destruct (db_create P h url "failed"); reflexivity.
Qed.

Lemma refused_input_witness :
  MultiPage.analyzeWebsite (Sample.platform [] []) "   " []
    = (Normal (SetError "Please enter a website URL"), []) /\
  SinglePage.analyzeWebsite (Sample.platform [] []) " not a url " []
    = (Normal (SetError "Please enter a valid website URL"),
       [EvDbCreate " not a url " "failed"]).
Proof.
  destruct (refused_input (Sample.platform [] []) "   " []) as [Hblank _].
  destruct (refused_input (Sample.platform [] []) " not a url " []) as [_ Hbad].
  split.
  - apply Hblank. reflexivity.
  - apply Hbad; [discriminate | reflexivity].
Defined.

(** X13.  When the database refuses the writes (the update always throws,
    or the creation always throws), neither flow ever shows a result, however
    well the analysis itself went; a history listing that throws changes
    nothing. *)
Theorem no_result_without_database (P : Platform) (url : string) (h : History)
    (r : AnalysisResult.t)
    (Hrefused : (forall h0 n s, exists e, db_update P h0 n s = Throw e) \/
                (forall h0 u s, exists e, db_create P h0 u s = Throw e)) :
  ~ shows (MultiPage.analyzeWebsite P url h) r /\
  ~ shows (SinglePage.analyzeWebsite P url h) r.
Proof.
  split; intros Hshown.
  - pose proof (multi_page_shows_try P url h r Hshown) as Htry.
    destruct (multi_page_try_trace P url h _ _ Htry)
      as (v & d & rs & hd & hl & _ & Hcreate & _ & _ & _ & _ & _ & Hupdate & _).
    destruct Hrefused as [Hu | Hc].
    + destruct (Hu hl (AnalysisResult.totalProductCount (aggregate P d rs)) "completed")
        as [e He]. congruence.
    + destruct (Hc h v "analyzing") as [e He]. congruence.
  - pose proof (single_page_shows_try P url h r Hshown) as Htry.
    destruct (single_page_try_trace P url h _ _ Htry)
      as (v & shot & scraped & a & vis & _ & Hcreate & _ & _ & Hupdate & _).
    cbv zeta in Hupdate.
    destruct Hrefused as [Hu | Hc].
    + match type of Hupdate with
      | db_update P ?h0 ?n ?s = _ => destruct (Hu h0 n s) as [e He]
      end. congruence.
    + destruct (Hc h v "analyzing") as [e He]. congruence.
Qed.

Lemma no_result_without_database_witness :
  fst (MultiPage.analyzeWebsite
         (Sample.read_only (Sample.two_pages (Sample.counted 4 80) (Sample.counted 6 60)))
         "example.com" [])
  = Normal (SetError "read-only") /\
  forall r,
    ~ shows (MultiPage.analyzeWebsite
               (Sample.read_only (Sample.two_pages (Sample.counted 4 80) (Sample.counted 6 60)))
               "example.com" []) r.
Proof.
  split; [vm_compute; reflexivity |].
  intros r.
  apply (no_result_without_database
           (Sample.read_only (Sample.two_pages (Sample.counted 4 80) (Sample.counted 6 60)))
           "example.com" [] r).
  left. intros h0 n s. eexists. reflexivity.
Defined.

(** X14.  In the single-page flow a page whose scraped text is missing or
    shorter than 100 characters aborts the run: the screenshot has been
    taken, the model is not called, the error shown is the one about
    protected or inaccessible sites, and a failed record is saved under the
    input as it was typed. *)
Theorem single_page_short_content (P : Platform) (url : string) (h : History)
    (validatedUrl screenshotUrl : string) (scraped : ScrapeResult)
    (Hinput : JS.trim url <> "")
    (Hvalid : validateUrl P (JS.trim url) = Normal validatedUrl)
    (Hcreate : db_create P h validatedUrl "analyzing" = Normal tt)
    (Hshot : data_screenshot P (h ++ [EvDbCreate validatedUrl "analyzing"]) validatedUrl
             = Normal screenshotUrl)
    (Hscrape : data_scrape P (h ++ [EvDbCreate validatedUrl "analyzing";
                                    EvScreenshot validatedUrl]) validatedUrl
               = Normal scraped)
    (Hshort : below_threshold (markdown scraped)) :
  SinglePage.analyzeWebsite P url h
  = (Normal (SetError
       "Could not scrape website content. The site may be protected or inaccessible."),
     h ++ [EvDbCreate validatedUrl "analyzing"; EvScreenshot validatedUrl;
           EvScrape validatedUrl; EvDbCreate url "failed"]) /\
  model_calls (snd (SinglePage.analyzeWebsite P url h)) = model_calls h.
Proof.
  assert (JS.truthy_string (JS.trim url) = true) as Ht
    by (destruct (JS.trim url); [now destruct Hinput | reflexivity]).
  assert (Hrun : SinglePage.analyzeWebsite P url h
    = (Normal (SetError
         "Could not scrape website content. The site may be protected or inaccessible."),
       h ++ [EvDbCreate validatedUrl "analyzing"; EvScreenshot validatedUrl;
             EvScrape validatedUrl; EvDbCreate url "failed"])).
  { unfold SinglePage.analyzeWebsite. rewrite Ht. change (negb true) with false.
    cbv beta iota. unfold try_catch at 1, SinglePage.analyzeWebsite_try.
    unfold bind at 1, lift at 1. rewrite Hvalid.
    unfold bind at 1, call at 1. rewrite Hcreate.
    unfold bind at 1, call at 1. rewrite Hshot.
    unfold bind at 1, call at 1. rewrite <- app_assoc. simpl app. rewrite Hscrape.
    rewrite (too_short_below _ Hshort). unfold throw.
    unfold SinglePage.analyzeWebsite_catch, bind, try_catch, call, ret. simpl.
    rewrite <- !app_assoc. simpl app.
    destruct (db_create P _ url "failed"); reflexivity. }
  split; [exact Hrun |]. rewrite Hrun. simpl snd. rewrite model_calls_app.
  change (model_calls [EvDbCreate validatedUrl "analyzing"; EvScreenshot validatedUrl;
                       EvScrape validatedUrl; EvDbCreate url "failed"]) with 0%nat.
  lia.
Qed.

Lemma single_page_short_content_witness :
  fst (SinglePage.analyzeWebsite
         (Sample.platform [("https://example.com", Sample.thin_page)] [])
         "example.com" [])
  = Normal (SetError
      "Could not scrape website content. The site may be protected or inaccessible.").
Proof.
  destruct (single_page_short_content
              (Sample.platform [("https://example.com", Sample.thin_page)] [])
              "example.com" [] "https://example.com" "shot:https://example.com"
              Sample.thin_page) as [Hrun _].
  - discriminate.
  - reflexivity.
  - reflexivity.
  - reflexivity.
  - reflexivity.
  - simpl. lia.
  - rewrite Hrun. reflexivity.
Defined.

(** ** Counts by category *)

Section Categories.

Local Open Scope Q_scope.






End Categories.




(** ** URL validation, again *)

Lemma startsWith_append (p s : string) : JS.startsWith (p +:+ s) p = true.
Proof.
  unfold JS.startsWith. induction p as [| c p IH]; simpl.
  - now destruct s.
  - destruct (ascii_dec c c) as [_ | Hne]; [exact IH | now destruct Hne].
Qed.

(** X17.  A URL that [validateUrl] returns starts with [http://] or
    [https://], and validating it again returns it unchanged. *)
Theorem validateUrl_idempotent (P : Platform) (url validatedUrl : string)
    (Hvalid : validateUrl P url = Normal validatedUrl) :
  (JS.startsWith validatedUrl "http://" = true \/
   JS.startsWith validatedUrl "https://" = true) /\
  validateUrl P validatedUrl = Normal validatedUrl.
Proof.
  apply validateUrl_Normal in Hvalid as [-> [parsed Hparsed]].
  assert (Hscheme : JS.startsWith (with_scheme url) "http://" = true \/
                    JS.startsWith (with_scheme url) "https://" = true).
  { unfold with_scheme.
    destruct (JS.startsWith url "http://") eqn:E1; [now left |].
    destruct (JS.startsWith url "https://") eqn:E2; simpl; [now right |].
    right. apply startsWith_append. }
  split; [exact Hscheme |].
  unfold validateUrl.
  assert ((negb (JS.startsWith (with_scheme url) "http://") &&
           negb (JS.startsWith (with_scheme url) "https://")) = false) as ->.
  { destruct Hscheme as [-> | ->]; simpl; [reflexivity | apply andb_false_r]. }
  now rewrite Hparsed.
Qed.

Lemma validateUrl_idempotent_witness :
  validateUrl (Sample.platform [] []) "https://example.com" = Normal "https://example.com".
Proof.
  apply (validateUrl_idempotent (Sample.platform [] []) "example.com").
  reflexivity.
Defined.

(** ** CSV export, again *)

Lemma join_cons (sep x : string) (xs : list string) :
  xs <> [] -> JS.join sep (x :: xs) = x +:+ sep +:+ JS.join sep xs.
Proof. destruct xs; [congruence | reflexivity]. Qed.

Lemma append_assoc (a b c : string) : (a +:+ b) +:+ c = a +:+ (b +:+ c).
Proof.
  induction a as [| x a IH]; [reflexivity |].
  change (String x ((a +:+ b) +:+ c) = String x (a +:+ (b +:+ c))). now f_equal.
Qed.

(** A cell that holds quote, comma, quote is written like two cells. *)
Lemma quoted_cells_shift (a b : string) (after : list string) :
  let sep := JS.dquote +:+ "," +:+ JS.dquote in
  JS.join "," (map CsvExport.quote ((a +:+ sep +:+ b) :: after))
  = JS.join "," (map CsvExport.quote (a :: b :: after)).
Proof.
  intros sep. rewrite !map_cons.
  rewrite (join_cons "," (CsvExport.quote a)) by discriminate.
  destruct after as [| y after].
  - simpl. unfold CsvExport.quote, sep. now rewrite !append_assoc.
  - rewrite (join_cons "," (CsvExport.quote (a +:+ sep +:+ b))) by discriminate.
    rewrite (join_cons "," (CsvExport.quote b)) by discriminate.
    unfold CsvExport.quote, sep. now rewrite !append_assoc.
Qed.

(** X18.  The export wraps every cell in double quotes and escapes nothing,
    so the file does not determine the result: two results that differ in
    one page, one with URL [a] and a title made of [b], quote, comma, quote,
    [c], the other with a URL made of [a], quote, comma, quote, [b] and title
    [c], are exported as the same file. *)
Theorem csv_export_is_ambiguous (P : Platform) (r1 r2 : AnalysisResult.t)
    (before after : list PageAnalysis.t) (p : PageAnalysis.t) (a b c : string)
    (H1 : AnalysisResult.pageResults r1
          = before ++ with_url_title p a (b +:+ JS.dquote +:+ "," +:+ JS.dquote +:+ c) :: after)
    (H2 : AnalysisResult.pageResults r2
          = before ++ with_url_title p (a +:+ JS.dquote +:+ "," +:+ JS.dquote +:+ b) c :: after) :
  CsvExport.csvContent P r1 = CsvExport.csvContent P r2.
Proof.
  unfold CsvExport.csvContent, CsvExport.csvData. rewrite H1, H2.
  rewrite !map_cons, !map_app, !map_cons. do 3 f_equal.
  unfold CsvExport.row at 1 3. cbn [with_url_title PageAnalysis.url PageAnalysis.title
    PageAnalysis.productCount PageAnalysis.pageType PageAnalysis.categories
    PageAnalysis.confidence PageAnalysis.status PageAnalysis.evidence].
  rewrite (quoted_cells_shift a b).
  rewrite (map_cons CsvExport.quote a), (map_cons CsvExport.quote a).
  rewrite !(join_cons "," (CsvExport.quote a)) by discriminate.
  do 3 f_equal.
  change (b +:+ JS.dquote +:+ "," +:+ JS.dquote +:+ c)
    with (b +:+ (JS.dquote +:+ "," +:+ JS.dquote) +:+ c).
  exact (quoted_cells_shift b c _).
Qed.

Lemma csv_export_is_ambiguous_witness :
  CsvExport.csvContent (Sample.platform [] [])
    (aggregate (Sample.platform [] []) []
       [with_url_title Sample.some_page "a"
          ("b" +:+ JS.dquote +:+ "," +:+ JS.dquote +:+ "c")])
  = CsvExport.csvContent (Sample.platform [] [])
      (aggregate (Sample.platform [] []) []
         [with_url_title Sample.some_page
            ("a" +:+ JS.dquote +:+ "," +:+ JS.dquote +:+ "b") "c"]).
Proof.
  eapply (csv_export_is_ambiguous _ _ _ [] []); rewrite aggregate_pageResults; reflexivity.
Defined.

(** ** Reading a sitemap *)

Section Sitemap.

Lemma chars_of_list (l : list ascii) : JS.chars (String.string_of_list_ascii l) = l.
Proof. apply String.list_ascii_of_string_of_list_ascii. Qed.

Lemma match_loc_go_eq (c : ascii) (s : list ascii) :
  JS.match_loc_go 0 (c :: s)
  = if JS.starts_with_chars (JS.chars "<loc>") (c :: s) then
      match JS.loc_body (drop 5 (c :: s)) with
      | Some k => take (5 + k + 6) (c :: s) :: JS.match_loc_go (5 + k + 5) s
      | None => JS.match_loc_go 0 s
      end
    else JS.match_loc_go 0 s.
Proof. reflexivity. Qed.

Lemma match_loc_go_skip (s1 s2 : list ascii) :
  JS.match_loc_go (length s1) (s1 ++ s2) = JS.match_loc_go 0 s2.
Proof. induction s1 as [| c s1 IH]; [reflexivity | exact IH]. Qed.

Lemma strip_loc_go_eq (c : ascii) (s : list ascii) :
  JS.strip_loc_go 0 (c :: s)
  = if JS.starts_with_chars (JS.chars "<loc>") (c :: s) then JS.strip_loc_go 4 s
    else if JS.starts_with_chars (JS.chars "</loc>") (c :: s) then JS.strip_loc_go 5 s
    else c :: JS.strip_loc_go 0 s.
Proof. reflexivity. Qed.

Lemma strip_loc_go_skip (s1 s2 : list ascii) :
  JS.strip_loc_go (length s1) (s1 ++ s2) = JS.strip_loc_go 0 s2.
Proof. induction s1 as [| c s1 IH]; [reflexivity | exact IH]. Qed.

Lemma starts_with_chars_app (p s : list ascii) : JS.starts_with_chars p (p ++ s) = true.
Proof.
  induction p as [| a p IH]; [reflexivity |]. simpl. now rewrite Ascii.eqb_refl.
Qed.

(** A sequence that does not begin with the opening tag still does not when
    a tag is put after it. *)
Lemma no_tag_across (c : ascii) (s t : list ascii) :
  JS.starts_with_chars (JS.chars "<loc>") (c :: s) = false ->
  JS.starts_with_chars (JS.chars "<loc>") ((c :: s) ++ "<"%char :: t) = false.
Proof.
  destruct s as [| c2 [| c3 [| c4 [| c5 s]]]]; simpl;
    repeat match goal with
           | |- context [Ascii.eqb ?a ?b] =>
               destruct (Ascii.eqb a b); simpl; try reflexivity; try discriminate
           end; auto.
Qed.

Lemma plain_head (c : ascii) (s : list ascii) :
  Ascii.eqb c "<" = false ->
  JS.starts_with_chars (JS.chars "<loc>") (c :: s) = false /\
  JS.starts_with_chars (JS.chars "</loc>") (c :: s) = false.
Proof.
  intros H.
  change (JS.starts_with_chars (JS.chars "<loc>") (c :: s))
    with (Ascii.eqb "<" c && JS.starts_with_chars (JS.chars "loc>") s).
  change (JS.starts_with_chars (JS.chars "</loc>") (c :: s))
    with (Ascii.eqb "<" c && JS.starts_with_chars (JS.chars "/loc>") s).
  rewrite Ascii.eqb_sym, H. split; reflexivity.
Qed.

Lemma loc_body_plain (location rest : list ascii) :
  plain_text location ->
  JS.loc_body (location ++ (JS.chars "</loc>") ++ rest) = Some (length location).
Proof.
  induction 1 as [| c location [Hc Hl] Hall IH].
  - reflexivity.
  - change (JS.loc_body ((c :: location) ++ (JS.chars "</loc>") ++ rest))
      with (if JS.starts_with_chars (JS.chars "</loc>") (c :: location ++ (JS.chars "</loc>") ++ rest)
            then Some 0%nat
            else if JS.is_line_terminator c then None
                 else match JS.loc_body (location ++ (JS.chars "</loc>") ++ rest) with
                      | Some k => Some (S k)
                      | None => None
                      end).
    destruct (plain_head c (location ++ (JS.chars "</loc>") ++ rest) Hc) as [_ ->].
    now rewrite Hl, IH.
Qed.

Lemma match_loc_go_before (before t : list ascii) :
  loc_free before ->
  JS.match_loc_go 0 (before ++ "<"%char :: t) = JS.match_loc_go 0 ("<"%char :: t).
Proof.
  induction before as [| c before IH]; intros Hfree; [reflexivity |].
  destruct Hfree as [Hc Hfree].
  change ((c :: before) ++ "<"%char :: t) with (c :: (before ++ "<"%char :: t)).
  rewrite match_loc_go_eq.
  change (c :: (before ++ "<"%char :: t)) with ((c :: before) ++ "<"%char :: t).
  rewrite (no_tag_across c before t Hc). now apply IH.
Qed.

Lemma match_loc_go_free (rest : list ascii) :
  loc_free rest -> JS.match_loc_go 0 rest = [].
Proof.
  induction rest as [| c rest IH]; intros Hfree; [reflexivity |].
  destruct Hfree as [Hc Hfree]. rewrite match_loc_go_eq, Hc. now apply IH.
Qed.

(** One entry at the head of the text is matched whole, and the scan goes
    on after it. *)
Lemma match_loc_go_entry (location tail : list ascii) :
  plain_text location ->
  JS.match_loc_go 0 (JS.chars "<loc>" ++ location ++ JS.chars "</loc>" ++ tail)
  = (JS.chars "<loc>" ++ location ++ JS.chars "</loc>") :: JS.match_loc_go 0 tail.
Proof.
  intros Hl.
  change (JS.chars "<loc>" ++ location ++ JS.chars "</loc>" ++ tail)
    with ("<"%char :: (JS.chars "loc>" ++ location ++ JS.chars "</loc>" ++ tail)).
  rewrite match_loc_go_eq.
  match goal with
  | |- context [if ?b then _ else _] =>
      replace b with true
        by (symmetry;
            exact (starts_with_chars_app (JS.chars "<loc>")
                     (location ++ JS.chars "</loc>" ++ tail)))
  end.
  match goal with
  | |- context [JS.loc_body ?l] =>
      replace (JS.loc_body l) with (Some (length location))
        by (symmetry; exact (loc_body_plain location tail Hl))
  end.
  f_equal.
  - match goal with
    | |- take _ ?l = _ =>
        replace l with ((JS.chars "<loc>" ++ location ++ JS.chars "</loc>") ++ tail)
          by (rewrite <- !app_assoc; reflexivity)
    end.
    apply take_app_length'. rewrite !length_app. simpl. lia.
  - replace (JS.chars "loc>" ++ location ++ JS.chars "</loc>" ++ tail)
      with ((JS.chars "loc>" ++ location ++ JS.chars "</loc>") ++ tail)
      by (rewrite <- !app_assoc; reflexivity).
    replace (5 + length location + 5)%nat
      with (length (JS.chars "loc>" ++ location ++ JS.chars "</loc>"))
      by (rewrite !length_app; simpl; lia).
    apply match_loc_go_skip.
Qed.

Lemma match_loc_go_sitemap (entries : list (list ascii * list ascii)) (rest : list ascii) :
  Forall (fun e => loc_free (fst e) /\ plain_text (snd e)) entries ->
  loc_free rest ->
  JS.match_loc_go 0 (sitemap_of entries rest)
  = map (fun e => JS.chars "<loc>" ++ snd e ++ JS.chars "</loc>") entries.
Proof.
  intros Hall Hrest. induction Hall as [| [before location] entries [Hb Hl] Hall IH].
  - now apply match_loc_go_free.
  - change (sitemap_of ((before, location) :: entries) rest)
      with (before ++ "<"%char :: (JS.chars "loc>" ++ location ++ JS.chars "</loc>"
                                   ++ sitemap_of entries rest)).
    rewrite (match_loc_go_before before _ Hb).
    change ("<"%char :: (JS.chars "loc>" ++ location ++ JS.chars "</loc>"
                         ++ sitemap_of entries rest))
      with (JS.chars "<loc>" ++ location ++ JS.chars "</loc>" ++ sitemap_of entries rest).
    rewrite (match_loc_go_entry location _ Hl), IH. reflexivity.
Qed.

Lemma strip_loc_go_plain (location : list ascii) :
  plain_text location ->
  JS.strip_loc_go 0 (JS.chars "<loc>" ++ location ++ JS.chars "</loc>") = location.
Proof.
  intros Hl.
  change (JS.chars "<loc>" ++ location ++ JS.chars "</loc>")
    with ("<"%char :: (JS.chars "loc>" ++ location ++ JS.chars "</loc>")).
  rewrite strip_loc_go_eq.
  match goal with
  | |- context [if ?b then _ else _] =>
      replace b with true
        by (symmetry;
            exact (starts_with_chars_app (JS.chars "<loc>")
                     (location ++ JS.chars "</loc>")))
  end.
  change 4%nat with (length (JS.chars "loc>")). rewrite strip_loc_go_skip.
  induction Hl as [| c location [Hc _] Hall IH]; [reflexivity |].
  change ((c :: location) ++ JS.chars "</loc>")
    with (c :: (location ++ JS.chars "</loc>")).
  rewrite strip_loc_go_eq.
  destruct (plain_head c (location ++ JS.chars "</loc>") Hc) as [-> ->]. now rewrite IH.
Qed.

(** X19.  From a sitemap text made of entries, each a location without tag
    or line break between [<loc>] and [</loc>], with any text in which no
    [<loc>] opens before, between and after them, the code extracts exactly
    the locations, in order, each with the white space around it removed:
    these are the strings it then tries to parse as URLs. *)
Theorem sitemap_locations_extracted (entries : list (list ascii * list ascii))
    (rest : list ascii)
    (Hentries : Forall (fun e => loc_free (fst e) /\ plain_text (snd e)) entries)
    (Hrest : loc_free rest) :
  map (fun m => JS.trim (JS.strip_loc m))
      (JS.match_loc (String.string_of_list_ascii (sitemap_of entries rest)))
  = map (fun e => JS.trim (String.string_of_list_ascii (snd e))) entries.
Proof.
  unfold JS.match_loc. rewrite chars_of_list.
  rewrite (match_loc_go_sitemap entries rest Hentries Hrest).
  rewrite !map_map. clear Hrest.
  induction Hentries as [| [before location] entries [_ Hl] Hall IH]; [reflexivity |].
  rewrite !map_cons. f_equal; [| exact IH].
  cbv beta. change (snd (before, location)) with location.
  unfold JS.strip_loc. rewrite chars_of_list.
  now rewrite (strip_loc_go_plain location Hl).
Qed.

Lemma sitemap_locations_extracted_witness :
  map (fun m => JS.trim (JS.strip_loc m))
      (JS.match_loc
         (String.string_of_list_ascii
            (sitemap_of
               [(JS.chars "<urlset><url>", JS.chars "https://example.com/products/1");
                (JS.chars "</url><url><lastmod>2024</lastmod>",
                 JS.chars " https://example.com/blog ")]
               (JS.chars "</url></urlset>"))))
  = ["https://example.com/products/1"; "https://example.com/blog"].
Proof.
  rewrite sitemap_locations_extracted.
  - reflexivity.
  - repeat constructor.
  - repeat constructor.
Defined.

Lemma string_of_chars_app (a b : list ascii) :
  String.string_of_list_ascii (a ++ b)
  = String.string_of_list_ascii a +:+ String.string_of_list_ascii b.
Proof.
  induction a as [| c a IH]; [reflexivity |].
  change (String c (String.string_of_list_ascii (a ++ b))
          = String c (String.string_of_list_ascii a +:+ String.string_of_list_ascii b)).
  now f_equal.
Qed.

Lemma starts_with_chars_true (p s : list ascii) :
  JS.starts_with_chars p s = true -> exists t, s = p ++ t.
Proof.
  revert s. induction p as [| a p IH]; intros s H; [now exists s |].
  destruct s as [| b s]; [discriminate |]. simpl in H.
  apply andb_true_iff in H as [Hab Hp]. apply Ascii.eqb_eq in Hab as ->.
  destruct (IH s Hp) as [t ->]. now exists t.
Qed.

Lemma loc_body_Some (s : list ascii) (k : nat) :
  JS.loc_body s = Some k ->
  exists body tail,
    s = body ++ JS.chars "</loc>" ++ tail /\ length body = k /\
    Forall (fun c => JS.is_line_terminator c = false) body.
Proof.
  revert k. induction s as [| c s IH]; intros k H.
  - discriminate.
  - change (JS.loc_body (c :: s))
      with (if JS.starts_with_chars (JS.chars "</loc>") (c :: s) then Some 0%nat
            else if JS.is_line_terminator c then None
                 else match JS.loc_body s with
                      | Some k => Some (S k)
                      | None => None
                      end) in H.
    destruct (JS.starts_with_chars (JS.chars "</loc>") (c :: s)) eqn:Hclose.
    + injection H as <-. apply starts_with_chars_true in Hclose as [t ->].
      exists [], t. repeat split. constructor.
    + destruct (JS.is_line_terminator c) eqn:Hc; [discriminate |].
      destruct (JS.loc_body s) as [k' |]; [| discriminate]. injection H as <-.
      destruct (IH k' eq_refl) as (body & tail & -> & Hlen & Hall).
      exists (c :: body), tail. repeat split; [simpl; now rewrite Hlen | now constructor].
Qed.

Lemma match_loc_go_sound (s : list ascii) :
  forall (skip : nat) (m : list ascii),
  m ∈ JS.match_loc_go skip s ->
  exists body,
    m = JS.chars "<loc>" ++ body ++ JS.chars "</loc>" /\
    Forall (fun c => JS.is_line_terminator c = false) body.
Proof.
  induction s as [| c s IH]; intros skip m Hm; [inversion Hm |].
  destruct skip as [| skip]; [| exact (IH skip m Hm)].
  rewrite match_loc_go_eq in Hm.
  destruct (JS.starts_with_chars (JS.chars "<loc>") (c :: s)) eqn:Hopen;
    [| exact (IH 0%nat m Hm)].
  destruct (JS.loc_body (drop 5 (c :: s))) as [k |] eqn:Hbody; [| exact (IH 0%nat m Hm)].
  apply elem_of_cons in Hm as [-> | Hm]; [| exact (IH _ m Hm)].
  apply starts_with_chars_true in Hopen as [t Ht]. rewrite Ht in *.
  change (drop 5 (JS.chars "<loc>" ++ t)) with t in Hbody.
  destruct (loc_body_Some t k Hbody) as (body & tail & -> & Hlen & Hall).
  exists body. split; [| exact Hall].
  replace (JS.chars "<loc>" ++ body ++ JS.chars "</loc>" ++ tail)
    with ((JS.chars "<loc>" ++ body ++ JS.chars "</loc>") ++ tail)
    by (rewrite <- !app_assoc; reflexivity).
  apply take_app_length'. rewrite !length_app, Hlen. simpl. lia.
Qed.

(** X20.  Whatever the sitemap text, every piece the code takes from it is
    an opening tag, some text without line break, and a closing tag: text
    outside [<loc>] tags, and a location broken over two lines, never become
    a page. *)
Theorem sitemap_matches_are_tagged (text m : string)
    (Hm : m ∈ JS.match_loc text) :
  exists body,
    m = "<loc>" +:+ body +:+ "</loc>" /\
    Forall (fun c => JS.is_line_terminator c = false) (JS.chars body).
Proof.
  unfold JS.match_loc in Hm. apply list_elem_of_fmap in Hm as (l & -> & Hl).
  destruct (match_loc_go_sound _ _ _ Hl) as (body & -> & Hall).
  exists (String.string_of_list_ascii body). split; [| now rewrite chars_of_list].
  rewrite !string_of_chars_app. unfold JS.chars.
  now rewrite !String.string_of_list_ascii_of_string.
Qed.

Lemma sitemap_matches_are_tagged_witness :
  exists body, "<loc> https://example.com/blog </loc>" = "<loc>" +:+ body +:+ "</loc>".
Proof.
  destruct (sitemap_matches_are_tagged Sample.sitemap_text
              "<loc> https://example.com/blog </loc>") as (body & Hbody & _).
  - vm_compute. set_solver.
  - exists body. exact Hbody.
Defined.

End Sitemap.

(** ** The single-page count, without assumption *)

Section FinalCountBounds.

Local Open Scope Q_scope.



End FinalCountBounds.

(** ** Small sites *)

Lemma filter_agree (P1 P2 : string -> Prop) `{!forall x, Decision (P1 x)}
    `{!forall x, Decision (P2 x)} (l : list string) :
  (forall x, x ∈ l -> (P1 x <-> P2 x)) -> filter P1 l = filter P2 l.
Proof.
  induction l as [| x l IH]; intros Hagree; [reflexivity |].
  rewrite !filter_cons.
  assert (P1 x <-> P2 x) as Hx by (apply Hagree; constructor).
  rewrite IH by (intros y Hy; apply Hagree; now constructor).
  destruct (decide (P1 x)), (decide (P2 x)); tauto.
Qed.

(** X22.  When the discovered pages hold at most 15 product pages, at most
    10 category pages and at most 5 others, the prioritised list drops none
    of them: every discovered page is analysed. *)
Theorem small_site_is_kept_whole (pages : list string)
    (Hproduct : (length (filter (fun u => Is_true (Discovery.is_product_page u)) pages)
                 <= 15)%nat)
    (Hcategory : (length (filter (fun u => Is_true (Discovery.is_category_page u)) pages)
                  <= 10)%nat)
    (Hother : (length (filter (fun u => Is_true (negb (Discovery.is_product_page u) &&
                                                  negb (Discovery.is_category_page u)))
                              pages) <= 5)%nat) :
  forall u, u ∈ pages <-> u ∈ Discovery.prioritize pages.
Proof.
  intros u. split; [| apply prioritize_subset].
  intros Hu. rewrite prioritize_buckets_eq.
  rewrite (take_ge _ 15) by exact Hproduct. rewrite (take_ge _ 10) by exact Hcategory.
  rewrite !elem_of_app.
  destruct (Discovery.is_product_page u) eqn:Hp.
  { left. apply productPages_spec. now split. }
  destruct (Discovery.is_category_page u) eqn:Hc.
  { right. left. apply categoryPages_spec. now split. }
  right. right. rewrite take_ge.
  - apply otherPages_spec. repeat split; assumption.
  - etransitivity; [| exact Hother]. apply Nat.eq_le_incl. f_equal.
    apply filter_agree. intros x Hx.
    rewrite !Is_true_true, !andb_true_iff. unfold JS.Array_includes.
    rewrite !negb_true_iff, !bool_decide_eq_false.
    pose proof (productPages_spec pages x) as Hps.
    pose proof (categoryPages_spec pages x) as Hcs.
    cbv zeta in Hps, Hcs. rewrite Hps, Hcs.
    destruct (Discovery.is_product_page x), (Discovery.is_category_page x);
      split; intros [H1 H2]; split; try congruence; try tauto;
      intros [? _]; discriminate.
Qed.

Lemma small_site_is_kept_whole_witness :
  "https://example.com/about-us"
    ∈ Discovery.prioritize ["https://example.com"; "https://example.com/about-us"].
Proof.
  apply small_site_is_kept_whole.
  - vm_compute. lia.
  - vm_compute. lia.
  - vm_compute. lia.
  - set_solver.
Defined.
